(** * psy-tutor: a shallow embedding of [app.py]

    The application is one Streamlit script.  Each part of the script the
    specification talks about is embedded as a function:

    - Python strings are Rocq [string]s holding the UTF-8 bytes of the
      text, Python [int]s are [Z], Python lists are [list]s.  White space
      is what [str.isspace] accepts, in its UTF-8 encoding: the ASCII
      white space and U+0085, U+00A0, U+1680, U+2000-U+200A, U+2028,
      U+2029, U+202F, U+205F, U+3000.  Strings compare byte by byte, which
      on UTF-8 is the order of the code points;
    - code that can raise returns a [res], the error monad of §1, and
      [try ... except Exception] is [try_except];
    - the collaborators the script calls but does not define (the file
      system, pdfplumber, the OpenAI SDK, [str.lower]) are parameters of
      the functions that use them, and each of their calls can raise;
    - [st.cache_data] is an explicit keyed store threaded through the call;
    - what the script shows to the user is a list of [ui] elements, and
      what the Streamlit runner adds for an exception that leaves the
      script is [rendered]. *)

From Stdlib Require Import ZArith QArith_base String Ascii List DecimalString Lia Bool.
From Stdlib Require Import Sorted Permutation.
From stdpp Require Import base option list gmap strings.

Local Open Scope string_scope.
Local Open Scope list_scope.
Local Open Scope Z_scope.

(* ===================================================================== *)
(** * 1. Python values, exceptions and the few builtins the script uses   *)
(* ===================================================================== *)

Module Py.

(** The newline character and [str(n)] for an [int]. *)
Definition nl : string := String (ascii_of_nat 10) "".
Definition str_int (n : Z) : string := NilZero.string_of_int (Z.to_int n).

(** Two hexadecimal digits, as [repr] prints a control character. *)
Definition hex_digit (n : nat) : ascii :=
  ascii_of_nat (if (n <? 10)%nat then 48 + n else 87 + n).

Definition hex2 (c : ascii) : string :=
  let n := nat_of_ascii c in
  String (hex_digit (n / 16)) (String (hex_digit (n mod 16)) "").

Fixpoint has_char (q : ascii) (s : string) : bool :=
  match s with
  | EmptyString => false
  | String c rest => Ascii.eqb c q || has_char q rest
  end.

(** The body of [repr(s)] between the quotes [q]: the quote and the
    backslash are escaped, the control characters are printed as
    [repr] prints them, every other byte is kept. *)
Fixpoint repr_body (q : ascii) (s : string) : string :=
  match s with
  | EmptyString => EmptyString
  | String c rest =>
      let n := nat_of_ascii c in
      (if Ascii.eqb c q then String "\" (String q "")
       else if Ascii.eqb c "\" then "\\"
       else if (n =? 10)%nat then "\n"
       else if (n =? 13)%nat then "\r"
       else if (n =? 9)%nat then "\t"
       else if (n <? 32)%nat || (n =? 127)%nat then "\x" +:+ hex2 c
       else String c "")
      +:+ repr_body q rest
  end.

(** [repr(s)] for a [str]: single quotes, unless the string holds a
    single quote and no double quote. *)
Definition repr (s : string) : string :=
  let q : ascii :=
    if has_char "'" s && negb (has_char (ascii_of_nat 34) s)
    then ascii_of_nat 34 else "'"%char in
  String q (repr_body q s +:+ String q "").

(** The exceptions that can occur in the embedded code.  All of them are
    subclasses of [Exception]. *)
Inductive exn : Type :=
| IndexError (msg : string)
| KeyError (key : string)
| AttributeError (msg : string)
| OSError (msg : string)
| LibraryError (cls msg : string).

(** [str(e)]: the message, and for a [KeyError] the repr of its key. *)
Definition exn_str (e : exn) : string :=
  match e with
  | IndexError m | AttributeError m | OSError m | LibraryError _ m => m
  | KeyError k => repr k
  end.

(** Result of running code that may raise. *)
Inductive res (A : Type) : Type :=
| Ok (a : A)
| Raise (e : exn).
Arguments Ok {A} a.
Arguments Raise {A} e.

Definition bind {A B} (m : res A) (k : A -> res B) : res B :=
  match m with
  | Ok a => k a
  | Raise e => Raise e
  end.

(** [try: body except Exception as e: handler(e)] *)
Definition try_except {A} (body : res A) (handler : exn -> res A) : res A :=
  match body with
  | Ok a => Ok a
  | Raise e => handler e
  end.

Definition raises {A} (m : res A) : Prop := exists e, m = Raise e.

(** Truth value of a [str]: only the empty string is false. *)
Definition truthy (s : string) : bool :=
  match s with
  | EmptyString => false
  | String _ _ => true
  end.

(** [x or ""] on a [str]. *)
Definition or_empty (s : string) : string := if truthy s then s else "".

(** An index CPython can hold in a machine word ([sys.maxsize] is
    2^63 - 1). *)
Definition fits_index (i : Z) : bool := (- 2 ^ 63 <=? i) && (i <=? 2 ^ 63 - 1).

(** [l[i]] with Python's rules: a negative index counts from the end,
    an index outside [-len, len) raises [IndexError], with another
    message when the index does not fit a machine word. *)
Definition index {A} (l : list A) (i : Z) : res A :=
  let n := Z.of_nat (length l) in
  let j := if i <? 0 then i + n else i in
  let out_of_range :=
    IndexError (if fits_index i then "list index out of range"
                else "cannot fit 'int' into an index-sized integer") in
  if (j <? 0) || (n <=? j) then Raise out_of_range
  else match l !! Z.to_nat j with
       | Some x => Ok x
       | None => Raise out_of_range
       end.

(** [sep.join(l)] *)
Fixpoint join (sep : string) (l : list string) : string :=
  match l with
  | [] => ""
  | [x] => x
  | x :: rest => x +:+ sep +:+ join sep rest
  end.

(** [str.isspace] for a character of one byte: tab, newline, vertical
    tab, form feed, carriage return, the four separators 0x1c-0x1f and
    the space. *)
Definition isspace (c : ascii) : bool :=
  let n := nat_of_ascii c in
  ((9 <=? n)%nat && (n <=? 13)%nat) || ((28 <=? n)%nat && (n <=? 32)%nat).

(** [str.isspace] for a character of two bytes: U+0085 and U+00A0. *)
Definition isspace2 (c d : ascii) : bool :=
  (nat_of_ascii c =? 194)%nat &&
  ((nat_of_ascii d =? 133)%nat || (nat_of_ascii d =? 160)%nat).

(** [str.isspace] for a character of three bytes: U+1680, U+2000 to
    U+200A, U+2028, U+2029, U+202F, U+205F and U+3000. *)
Definition isspace3 (c d e : ascii) : bool :=
  let c := nat_of_ascii c in
  let d := nat_of_ascii d in
  let e := nat_of_ascii e in
  ((c =? 225) && (d =? 154) && (e =? 128))%nat ||
  ((c =? 226) && (d =? 128) &&
   (((128 <=? e) && (e <=? 138)) || (e =? 168) || (e =? 169) || (e =? 175)))%nat ||
  ((c =? 226) && (d =? 129) && (e =? 159))%nat ||
  ((c =? 227) && (d =? 128) && (e =? 128))%nat.

(** What follows the white-space character a string starts with, if it
    starts with one. *)
Definition space_prefix (s : string) : option string :=
  match s with
  | EmptyString => None
  | String c r =>
      if isspace c then Some r
      else match r with
           | EmptyString => None
           | String d r2 =>
               if isspace2 c d then Some r2
               else match r2 with
                    | EmptyString => None
                    | String e r3 => if isspace3 c d e then Some r3 else None
                    end
           end
  end.

(** [s.lstrip()] *)
Fixpoint lstrip (s : string) : string :=
  match s with
  | EmptyString => EmptyString
  | String c r =>
      if isspace c then lstrip r
      else match r with
           | EmptyString => s
           | String d r2 =>
               if isspace2 c d then lstrip r2
               else match r2 with
                    | EmptyString => s
                    | String e r3 => if isspace3 c d e then lstrip r3 else s
                    end
           end
  end.

(** A string made of white space only (the empty string included):
    nothing is left of it once the white space at its start is gone. *)
Definition all_space (s : string) : bool := negb (truthy (lstrip s)).

(** The same, character by character: the empty string, or a
    white-space character followed by such a string. *)
Inductive white : string -> Prop :=
| white_nil : white ""
| white_char (s r : string) : space_prefix s = Some r -> white r -> white s.

(** [s.rstrip()]: the string without its longest end of white space. *)
Fixpoint rstrip (s : string) : string :=
  match s with
  | EmptyString => EmptyString
  | String c r => if all_space s then EmptyString else String c (rstrip r)
  end.

(** [s.strip()] *)
Definition strip (s : string) : string := rstrip (lstrip s).

End Py.

Import Py.

(** [res] is a monad; the script's statements are sequenced with stdpp's
    [x ← m; k]. *)
#[global] Instance res_ret : MRet res := @Ok.
#[global] Instance res_bind : MBind res := fun A B k m => Py.bind m k.

(* ===================================================================== *)
(** * 2. The context window (app.py, lines 79-88)                         *)
(* ===================================================================== *)

Module Context.

(** The separator of line 88. *)
Definition SEP : string := nl +:+ nl +:+ "-----" +:+ nl +:+ nl.

(** Lines 80-85: the list [context_texts] after the three statements. *)
Definition context_texts (pages : list string) (page_idx : Z)
  : res (list string) :=
  let num_pages := Z.of_nat (length pages) in
  let context_texts := [] in
  context_texts ←
    (if 1 <? page_idx then
       p ← index pages (page_idx - 2);
       Ok (context_texts ++
             ["[Prev: Page " +:+ str_int (page_idx - 1) +:+ "]" +:+ nl +:+ p])
     else Ok context_texts);
  p ← index pages (page_idx - 1);
  let context_texts :=
    context_texts ++
      ["[Current: Page " +:+ str_int page_idx +:+ "]" +:+ nl +:+ p] in
  if page_idx <? num_pages then
    p ← index pages page_idx;
    Ok (context_texts ++
          ["[Next: Page " +:+ str_int (page_idx + 1) +:+ "]" +:+ nl +:+ p])
  else Ok context_texts.

(** Line 88, the comprehension [[t for t in context_texts if t]]. *)
Definition joined_entries (pages : list string) (page_idx : Z)
  : res (list string) :=
  context_texts ← context_texts pages page_idx;
  Ok (List.filter truthy context_texts).

(** Line 88: [context_text]. *)
Definition context_text (pages : list string) (page_idx : Z) : res string :=
  entries ← joined_entries pages page_idx;
  Ok (join SEP entries).

(** The specification's side (§4.3): a labelled entry, and the page with
    a 1-based number. *)
Definition entry (label : string) (n : Z) (body : string) : string :=
  "[" +:+ label +:+ ": Page " +:+ str_int n +:+ "]" +:+ nl +:+ body.

Definition page (pages : list string) (n : Z) : option string :=
  if n <? 1 then None else pages !! Z.to_nat (n - 1).

(** The positions a window around page [i] can show, with their labels. *)
Definition window_positions (i : Z) : list (Z * string) :=
  [(i - 1, "Prev"); (i, "Current"); (i + 1, "Next")].

End Context.

(* ===================================================================== *)
(** * 3. Text extraction (app.py, lines 55-73)                            *)
(* ===================================================================== *)

Module Extract.

(** A file of the chapters folder: what opening and reading it gives,
    its bytes or the exception of [open] (a file that cannot be read, a
    directory), and its modification time (what [os.path.getmtime]
    returns, compared only for equality). *)
Record file : Type := { data : res (list Byte.byte); modified : Z }.

(** The file system the script reads: path to file. *)
Abbreviation filesystem := (gmap string file).

(** One page of an opened PDF: what [page.extract_text()] does, raise or
    return [None] or a [str]. *)
Record pdf_page : Type := { extract_text : res (option string) }.

(** pdfplumber: [pdfplumber.open(BytesIO(data))] followed by [pdf.pages]
    either raises or gives the pages of the document, in physical
    order. *)
Definition pdf_library : Type := list Byte.byte -> res (list pdf_page).

(** The exception of a path that does not exist. *)
Definition FileNotFoundError (path : string) : exn :=
  OSError ("[Errno 2] No such file or directory: " +:+ repr path).

(** [open(file_path, "rb").read()] *)
Definition read_bytes (fs : filesystem) (file_path : string)
  : res (list Byte.byte) :=
  match fs !! file_path with
  | Some f => data f
  | None => Raise (FileNotFoundError file_path)
  end.

(** [os.path.getmtime(path)] *)
Definition getmtime (fs : filesystem) (path : string) : res Z :=
  match fs !! path with
  | Some f => Ok (modified f)
  | None => Raise (FileNotFoundError path)
  end.

(** [txt or ""] for what [extract_text] returned. *)
Definition text_or_empty (txt : option string) : string :=
  match txt with
  | Some txt => or_empty txt
  | None => ""
  end.

(** Lines 62-64: the loop over the pages.  An exception of
    [extract_text] ends it. *)
Fixpoint extract_pages (texts : list string) (pages : list pdf_page)
  : res (list string) :=
  match pages with
  | [] => Ok texts
  | page :: rest =>
      txt ← extract_text page;
      let txt := text_or_empty txt in
      extract_pages (texts ++ [strip txt]) rest
  end.

(** Lines 56-65, the body of [read_pdf_pages].  [mtime] is not used by
    the body: it is there for the cache key. *)
Definition read_pdf_pages (pdfplumber : pdf_library) (fs : filesystem)
    (file_path : string) (mtime : Z) : res (list string) :=
  let texts := [] in
  data ← read_bytes fs file_path;
  pdf ← pdfplumber data;
  extract_pages texts pdf.

(** [@st.cache_data]: results are stored under the arguments of the
    call.  [ran] lists the calls for which the body was executed. *)
Record cache (V : Type) : Type :=
  { store : gmap (string * Z) V; ran : list (string * Z) }.
Arguments store {V} c.
Arguments ran {V} c.

Definition empty_cache {V} : cache V := {| store := ∅; ran := [] |}.

Definition cache_data {V} (f : string -> Z -> res V)
    (c : cache V) (file_path : string) (mtime : Z) : res V * cache V :=
  match store c !! (file_path, mtime) with
  | Some v => (Ok v, c)
  | None =>
      let ran' := ran c ++ [(file_path, mtime)] in
      match f file_path mtime with
      | Ok v =>
          (Ok v, {| store := <[(file_path, mtime) := v]> (store c);
                    ran := ran' |})
      | Raise e => (Raise e, {| store := store c; ran := ran' |})
      end
  end.

(** Line 55-56: the decorated function. *)
Definition cached_read_pdf_pages (pdfplumber : pdf_library)
    (fs : filesystem) (c : cache (list string))
    (file_path : string) (mtime : Z)
  : res (list string) * cache (list string) :=
  cache_data (read_pdf_pages pdfplumber fs) c file_path mtime.

(** A string that neither starts nor ends with a white-space
    character. *)
Definition starts_with_space (s : string) : bool :=
  match space_prefix s with
  | Some _ => true
  | None => false
  end.

Fixpoint ends_with_space (s : string) : bool :=
  match s with
  | EmptyString => false
  | String _ r => all_space s || ends_with_space r
  end.

Definition stripped (s : string) : Prop :=
  starts_with_space s = false /\ ends_with_space s = false.

(** A document for which pdfplumber and every [extract_text] return. *)
Definition extracts (pdf : list pdf_page) (txts : list (option string))
  : Prop :=
  map extract_text pdf = map Ok txts.

(** A stand-in for pdfplumber, for the examples: it knows four
    documents and rejects every other byte content.  The pages of the
    third are "Wide" between a no-break space (U+00A0) and an
    ideographic space (U+3000), and an ideographic space followed by an
    em space (U+2003). *)
Definition sample_pdfplumber : pdf_library := fun data =>
  let s := string_of_list_byte data in
  if String.eqb s "%PDF three" then
    Ok [ {| extract_text := Ok (Some "  Intro text. ") |};
         {| extract_text := Ok None |};
         {| extract_text := Ok (Some ("Summary text." +:+ nl)) |} ]
  else if String.eqb s "%PDF blank" then Ok []
  else if String.eqb s "%PDF spaces" then
    Ok [ {| extract_text := Ok (Some " Wide　") |};
         {| extract_text := Ok (Some "　 ") |} ]
  else if String.eqb s "%PDF torn" then
    Ok [ {| extract_text := Ok (Some "Fine.") |};
         {| extract_text :=
              Raise (LibraryError "PSSyntaxError" "Invalid dictionary") |} ]
  else Raise (LibraryError "PDFSyntaxError"
                "No /Root object! - Is this really a PDF?").

End Extract.

(* ===================================================================== *)
(** * 4. What the script shows, and how a run of it ends                  *)
(* ===================================================================== *)

Module St.

(** The elements on the page: those the script sends, and the box in
    which the Streamlit runner shows an exception. *)
Inductive ui : Type :=
| error (body : string)
| warning (body : string)
| info (body : string)
| spinner (text : string)
| markdown (body : string)
| write (body : string)
| exception (e : exn).

(** How a stretch of the script ends: it goes on with a value, it calls
    [st.stop()], or an exception leaves it with no handler around. *)
Inductive flow (A : Type) : Type :=
| Continue (a : A)
| Stop
| Uncaught (e : exn).
Arguments Continue {A} a.
Arguments Stop {A}.
Arguments Uncaught {A} e.


End St.

Import St.

Module Script.
Import Extract.

(** Lines 67-73: read the chosen chapter, stop on a document without
    pages. *)
Definition load_chapter (pdfplumber : pdf_library) (fs : filesystem)
    (c : cache (list string)) (chapter_path : string)
  : list ui * flow (list string) * cache (list string) :=
  match getmtime fs chapter_path with
  | Raise e => ([], Uncaught e, c)
  | Ok mtime =>
      match cached_read_pdf_pages pdfplumber fs c chapter_path mtime with
      | (Raise e, c') => ([], Uncaught e, c')
      | (Ok pages, c') =>
          let num_pages := Z.of_nat (length pages) in
          if num_pages =? 0 then
            ([error "Couldn't read any pages from this PDF."], Stop, c')
          else ([], Continue pages, c')
      end
  end.

End Script.

(* ===================================================================== *)
(** * 5. The question templates (app.py, lines 96-119)                    *)
(* ===================================================================== *)

Module Templates.

(** A [dict] literal, in insertion order. *)
Definition QUESTION_TEMPLATES : list (string * string) :=
  [
    ("Summarize key points",
     "Summarize the most important ideas on this page in simple bullet points for a 9th grade student.");
    ("Explain like I'm in high school",
     "Explain the page content in very simple words for a high school student. Avoid jargon. Use short sentences and small examples.");
    ("Explain like I'm in elementary school",
     "Explain the page as if I am in grade 5. Use everyday examples and comparisons a child understands.");
    ("Make quiz questions",
     "Create 3 short multiple-choice questions (with 4 options each) from this page. Mark the correct answers clearly in the end.");
    ("Define difficult words",
     "List any difficult or technical words on this page and define them in very simple terms.");
    ("Step-by-step explanation",
     "Break down the content of this page step-by-step in clear, numbered points.");
    ("Real-life example",
     "Give one simple real-life example that matches the idea on this page. Keep it relevant for a school student.");
    ("Quick recap (30 seconds)",
     "Give a 4–6 bullet ‘quick recap’ of this page as if I only have 30 seconds before a test.")
  ].

(** [d[key]]: the value stored under [key], [KeyError] without one. *)
Fixpoint dict_get (d : list (string * string)) (key : string) : res string :=
  match d with
  | [] => Raise (KeyError key)
  | (k, v) :: rest => if String.eqb k key then Ok v else dict_get rest key
  end.

(** [list(d.keys())] *)
Definition keys (d : list (string * string)) : list string := map fst d.

(** Lines 110-113: the options of the help selector. *)
Definition mode_options : list string :=
  ["Custom question"] ++ keys QUESTION_TEMPLATES.

(** Lines 115-119.  [typed] is what the text input holds; the text input
    is only consulted in the custom mode. *)
Definition question (mode typed : string) : res (string * list ui) :=
  if String.eqb mode "Custom question" then Ok (typed, [])
  else
    question ← dict_get QUESTION_TEMPLATES mode;
    Ok (question, [info ("Template selected: **" +:+ mode +:+ "**")]).

End Templates.

(* ===================================================================== *)
(** * 6. The prompt and the call to the model (app.py, lines 123-164)     *)
(* ===================================================================== *)

Module LLM.

(** A chat message, and the arguments of [chat.completions.create]. *)
Record message : Type := { role : string; content : string }.

Record request : Type :=
  { model : string; messages : list message; temperature : Q }.

(** What the endpoint answers: the choices, each with a message whose
    content is a [str] or [None]. *)
Record choice : Type := { message_content : option string }.
Record response : Type := { choices : list choice }.

(** The OpenAI SDK.  [OpenAI(api_key=...)] gives a client or raises;
    [client.chat.completions.create] answers a request or raises.  The
    module-level name [OpenAI] is [None] when the import failed
    (lines 8-11). *)
Record client : Type := { create : request -> res response }.
Record sdk : Type := { new_client : string -> res client }.

(** Lines 133-138. *)
Definition system : string :=
  "You are a patient, friendly tutor for school students (elementary to high school). "
  +:+ "Answer as simply as possible using ONLY the provided text (which includes the selected page plus its neighbors). "
  +:+ "If the answer is not in the provided text, say: 'I can't find this in the provided pages.' "
  +:+ "Prefer bullet points, short sentences, and clear examples. Avoid jargon.".

(** Lines 141-151. *)
Definition user (context_text question : string) : string :=
  let bounded := or_empty context_text in
  "Context (selected page with ±1 neighbors):" +:+ nl +:+ "---" +:+ nl
  +:+ bounded +:+ nl +:+ "---" +:+ nl +:+ nl
  +:+ "Student request: " +:+ question +:+ nl +:+ nl
  +:+ "Rules:" +:+ nl
  +:+ "1) Use ONLY the text above." +:+ nl
  +:+ "2) Keep it simple for a school student." +:+ nl
  +:+ "3) Use bullets or short steps when helpful." +:+ nl
  +:+ "4) If info is missing, say you can't find it in the provided pages.".

(** Lines 156-159. *)
Definition compose (context_text question : string) : list message :=
  [ {| role := "system"; content := system |};
    {| role := "user"; content := user context_text question |} ].

(** [not api_key] for the value of [os.getenv]: [None] or a [str]. *)
Definition no_key (api_key : option string) : bool :=
  match api_key with
  | None => true
  | Some k => negb (truthy k)
  end.

(** [resp.choices[0].message.content.strip()] *)
Definition first_content (resp : response) : res string :=
  c ← index (choices resp) 0;
  match message_content c with
  | Some txt => Ok (strip txt)
  | None =>
      Raise (AttributeError "'NoneType' object has no attribute 'strip'")
  end.

(** Lines 124-164.  Besides the value returned, the function gives the
    calls of [client.chat.completions.create] it made.  The client is
    made on line 131, before the [try]. *)
Definition call_llm (OpenAI : option sdk) (api_key : option string)
    (model context_text question : string) : res string * list request :=
  match OpenAI with
  | None => (Ok "OpenAI SDK not found. Run: pip install openai>=1.0.0", [])
  | Some openai =>
      if no_key api_key then
        (Ok "No API key provided. Add it in the sidebar or set OPENAI_API_KEY.",
         [])
      else
        match new_client openai (default "" api_key) with
        | Raise e => (Raise e, [])
        | Ok client =>
            let req :=
              {| model := model;
                 messages := compose context_text question;
                 temperature := (3 # 10)%Q |} in
            (try_except
               (resp ← create client req;
                first_content resp)
               (fun e => Ok ("LLM error: " +:+ exn_str e)),
             [req])
        end
  end.

(** Lines 166-173: what pressing (or not pressing) the button does. *)
Definition on_ask (OpenAI : option sdk) (api_key : option string)
    (model_name context_text question : string) (ask : bool)
  : list ui * flow unit * list request :=
  if ask then
    if negb (truthy (strip question)) then
      ([warning "Please type or select a question."], Continue tt, [])
    else
      match call_llm OpenAI api_key model_name context_text question with
      | (Ok answer, sent) =>
          ([spinner "Thinking..."; markdown "**Answer:**"; write answer],
           Continue tt, sent)
      | (Raise e, sent) => ([spinner "Thinking..."], Uncaught e, sent)
      end
  else ([], Continue tt, []).

(** [needle in hay] *)
Fixpoint contains (needle hay : string) : bool :=
  String.prefix needle hay ||
  match hay with
  | EmptyString => false
  | String _ rest => contains needle rest
  end.

(** The sentence the model is told to answer with when the pages do not
    hold the answer. *)
Definition FALLBACK : string := "I can't find this in the provided pages.".

(** The number of places where [needle] occurs in [hay]. *)
Fixpoint occurrences (needle hay : string) : nat :=
  ((if String.prefix needle hay then 1 else 0) +
   match hay with
   | EmptyString => 0
   | String _ rest => occurrences needle rest
   end)%nat.

(** A text that tells its reader about the API key. *)
Definition names_credential (s : string) : bool :=
  contains "API key" s || contains "API_KEY" s || contains "credential" s.

(** Stand-ins for the SDK, for the examples: an endpoint that is down, one
    that answers without choices, one that answers, and an SDK whose
    client cannot be made. *)
Definition sdk_down : sdk :=
  {| new_client := fun _ =>
       Ok {| create := fun _ => Raise (LibraryError "APIConnectionError"
                                         "Connection error.") |} |}.

Definition sdk_no_choice : sdk :=
  {| new_client := fun _ => Ok {| create := fun _ => Ok {| choices := [] |} |} |}.

Definition sdk_echo : sdk :=
  {| new_client := fun _ =>
       Ok {| create := fun req =>
               Ok {| choices :=
                       [ {| message_content :=
                              Some (" - " +:+ model req +:+ " answers. ") |} ] |} |} |}.

Definition sdk_broken : sdk :=
  {| new_client := fun _ =>
       Raise (LibraryError "TypeError"
                "Client.__init__() got an unexpected keyword argument 'proxies'") |}.

End LLM.

(* ===================================================================== *)
(** * 6b. The chapters folder and the selectors (lines 30-52, 75-77, 90-94) *)
(* ===================================================================== *)

Module Listing.

(** One name of [os.listdir(path)], with what [os.path.isfile] says of the
    joined path. *)
Record dir_entry : Type := { name : string; is_file : bool }.

(** [s.endswith(suffix)] *)
Fixpoint endswith (suffix s : string) : bool :=
  String.eqb s suffix ||
  match s with
  | EmptyString => false
  | String _ rest => endswith suffix rest
  end.

(** [s.startswith("/")] *)
Definition startswith_sep (s : string) : bool :=
  match s with
  | String c _ => Ascii.eqb c "/"
  | EmptyString => false
  end.

(** [os.path.join(a, b)], POSIX. *)
Definition path_join (a b : string) : string :=
  if startswith_sep b then b
  else if negb (truthy a) || endswith "/" a then a +:+ b
  else a +:+ "/" +:+ b.

Fixpoint has_sep (s : string) : bool :=
  match s with
  | EmptyString => false
  | String c rest => Ascii.eqb c "/" || has_sep rest
  end.

(** [os.path.basename(p)]: what follows the last separator. *)
Fixpoint basename (p : string) : string :=
  match p with
  | EmptyString => EmptyString
  | String c rest =>
      if Ascii.eqb c "/" then basename rest
      else if has_sep rest then basename rest
      else p
  end.

(** A stand-in for [str.lower], for the examples: it lowers the ASCII
    letters and is [str.lower] on ASCII text. *)
Definition ascii_lower_char (c : ascii) : ascii :=
  let n := nat_of_ascii c in
  if (65 <=? n)%nat && (n <=? 90)%nat then ascii_of_nat (n + 32) else c.

Fixpoint ascii_lower (s : string) : string :=
  match s with
  | EmptyString => EmptyString
  | String c rest => String (ascii_lower_char c) (ascii_lower rest)
  end.

(** [sorted(l, key=key)]: a stable sort that compares keys with [<] only.
    [insert_sorted key x l] puts [x], which came before the elements of
    [l], behind the elements with a smaller key. *)
Fixpoint insert_sorted (key : string -> string) (x : string)
    (l : list string) : list string :=
  match l with
  | [] => [x]
  | y :: rest =>
      if String.ltb (key y) (key x) then y :: insert_sorted key x rest
      else x :: y :: rest
  end.

Fixpoint sorted (key : string -> string) (l : list string) : list string :=
  match l with
  | [] => []
  | x :: rest => insert_sorted key x (sorted key rest)
  end.

Section WithLower.

(** [str.lower], which follows the Unicode tables. *)
Variable lower : string -> string.

(** The key of line 45. *)
Definition sort_key (p : string) : string := lower (basename p).

(** The files of a listing that [_list_pdfs] keeps. *)
Definition is_pdf (e : dir_entry) : bool :=
  is_file e && endswith ".pdf" (lower (name e)).

(** Lines 38-45, from the list [os.listdir(path)] returned. *)
Definition _list_pdfs (listing : list dir_entry) (path : string)
  : list string :=
  let files := [] in
  let files :=
    foldl (fun files e =>
             let full := path_join path (name e) in
             if is_file e && endswith ".pdf" (lower (name e))
             then files ++ [full] else files)
          files listing in
  sorted sort_key files.

(** Lines 34-50.  [folder] is [None] when [BOOK_DIR] is not a directory;
    otherwise it is what [os.listdir(BOOK_DIR)] does on line 40, raise
    or return the names. *)
Definition locate_chapters (BOOK_DIR : string)
    (folder : option (res (list dir_entry)))
  : list ui * flow (list string) :=
  match folder with
  | None =>
      ([error "Folder `psychology_book` not found next to this app. Create it and add PDF chapters."],
       Stop)
  | Some (Raise e) => ([], Uncaught e)
  | Some (Ok listing) =>
      let pdf_paths := _list_pdfs listing BOOK_DIR in
      match pdf_paths with
      | [] =>
          ([warning "No PDFs found in `psychology_book`. Add chapter PDFs and refresh."],
           Stop)
      | _ :: _ => ([], Continue pdf_paths)
      end
  end.

End WithLower.

End Listing.

Module Pages.

(** [list(range(a, b))] *)
Definition range (a b : Z) : list Z := seqZ a (b - a).

(** Line 76. *)
Definition page_options (num_pages : Z) : list Z := range 1 (num_pages + 1).

(** [st.selectbox(label, options, index=0)] before the user touches it:
    the first option. *)
Definition selectbox_default {A} (options : list A) : res A := index options 0.

(** Lines 91-94: the title and the body of the expander, when the box is
    ticked. *)
Definition preview (show_page_text : bool) (pages : list string)
    (page_idx : Z) : res (option (string * string)) :=
  if show_page_text then
    let title := "Show extracted text for page " +:+ str_int page_idx in
    curr_text ← index pages (page_idx - 1);
    Ok (Some (title,
              if truthy curr_text then curr_text
              else "_No text extracted from this page._"))
  else Ok None.

End Pages.

Module Session.
Import Extract.

(** The reruns of a session: each one reads a chapter under the
    modification time the file has on the file system of that moment,
    and hands the cache to the next (lines 67-68, once per rerun). *)
Fixpoint replay (pdfplumber : pdf_library)
    (reruns : list (filesystem * string * Z)) (c : cache (list string))
  : cache (list string) :=
  match reruns with
  | [] => c
  | (fs, file_path, mtime) :: rest =>
      replay pdfplumber rest
        (snd (cached_read_pdf_pages pdfplumber fs c file_path mtime))
  end.

End Session.

(* ===================================================================== *)
(** * 7. Properties                                                       *)
(* ===================================================================== *)

(** ** 7.1 The builtins *)

Lemma bind_Ok {A B} (a : A) (k : A -> res B) : (x ← Ok a; k x) = k a.
Proof. reflexivity. Qed.


Example str_int_samples :
  str_int 0 = "0" /\ str_int 12 = "12" /\ str_int (-3) = "-3".
Proof. repeat split. Qed.

Example index_samples :
  index ["a"; "b"; "c"] 0 = Ok "a" /\
  index ["a"; "b"; "c"] (-1) = Ok "c" /\
  index ["a"; "b"; "c"] 3 = Raise (IndexError "list index out of range") /\
  index ["a"; "b"; "c"] (-4) = Raise (IndexError "list index out of range") /\
  index ["a"; "b"; "c"] (2 ^ 63)
  = Raise (IndexError "cannot fit 'int' into an index-sized integer").
Proof. repeat split. Qed.

Example repr_samples :
  repr "ch1.pdf" = "'ch1.pdf'" /\
  repr "it's" = String (ascii_of_nat 34) ("it's" +:+ String (ascii_of_nat 34) "") /\
  repr ("a" +:+ nl) = "'a\n'".
Proof. repeat split. Qed.

Example strip_samples :
  strip ("  a b " +:+ nl) = "a b" /\ strip (" " +:+ nl) = "" /\ strip "" = "".
Proof. repeat split. Qed.

(** White space outside ASCII: the no-break space U+00A0, the em space
    U+2003 and the ideographic space U+3000 are stripped; an accented
    letter is text. *)
Example strip_unicode_samples :
  strip " Intro text. " = "Intro text." /\
  strip " 　été　 " = "été" /\
  strip " 　" = "" /\
  all_space " 　 " = true /\ all_space "é" = false.
Proof. repeat split. Qed.

Example join_samples :
  join ", " [] = "" /\ join ", " ["a"] = "a" /\
  join ", " ["a"; "b"; "c"] = "a, b, c".
Proof. repeat split. Qed.

(** Inside the list, indexing is the lookup at that position. *)
Lemma index_in_range {A} (l : list A) (i : Z) :
  0 <= i < Z.of_nat (length l) ->
  exists x, l !! Z.to_nat i = Some x /\ index l i = Ok x.
Proof.
  intros Hi. unfold index.
  destruct (i <? 0) eqn:Hneg; [apply Z.ltb_lt in Hneg; lia|].
  rewrite Hneg. simpl.
  destruct (Z.of_nat (length l) <=? i) eqn:Hge; [apply Z.leb_le in Hge; lia|].
  destruct (l !! Z.to_nat i) as [x|] eqn:Hx.
  - exists x. split; reflexivity.
  - apply lookup_ge_None in Hx. lia.
Qed.

(** Past the end, indexing raises. *)
Lemma index_past_end {A} (l : list A) (i : Z) :
  Z.of_nat (length l) <= i -> raises (index l i).
Proof.
  intros Hi. unfold index, raises.
  destruct (i <? 0) eqn:Hneg; [apply Z.ltb_lt in Hneg; lia|].
  rewrite Hneg.
  destruct (Z.of_nat (length l) <=? i) eqn:Hge; [|apply Z.leb_gt in Hge; lia].
  simpl. eauto.
Qed.

(** ** 7.2 The context window *)

Module ContextProps.
Import Context.

(** Scenario A of the specification: three pages, the second selected. *)
Example window_middle :
  context_text ["Intro text."; "Core concept text."; "Summary text."] 2
  = Ok ("[Prev: Page 1]" +:+ nl +:+ "Intro text." +:+ SEP
        +:+ "[Current: Page 2]" +:+ nl +:+ "Core concept text." +:+ SEP
        +:+ "[Next: Page 3]" +:+ nl +:+ "Summary text.").
Proof. reflexivity. Qed.

(** Scenario B: a single page. *)
Example window_single :
  context_text ["Only page."] 1
  = Ok ("[Current: Page 1]" +:+ nl +:+ "Only page.").
Proof. reflexivity. Qed.

(** Outside [1, N] the script would raise; the page selector never offers
    such an index. *)
Example window_past_end :
  context_text ["a"; "b"] 3 = Raise (IndexError "list index out of range").
Proof. reflexivity. Qed.


Lemma page_in_range (pages : list string) (n : Z) :
  1 <= n <= Z.of_nat (length pages) ->
  exists p, page pages n = Some p /\ index pages (n - 1) = Ok p.
Proof.
  intros Hn. unfold page.
  destruct (n <? 1) eqn:Hlt; [apply Z.ltb_lt in Hlt; lia|].
  apply index_in_range. lia.
Qed.

(** The list built by lines 80-85, for an index the selector offers. *)
Lemma context_texts_valid (pages : list string) (i : Z) :
  1 <= i <= Z.of_nat (length pages) ->
  exists cur prev next,
    page pages i = Some cur /\
    context_texts pages i = Ok (prev ++ [entry "Current" i cur] ++ next) /\
    (1 < i -> exists p, page pages (i - 1) = Some p
                        /\ prev = [entry "Prev" (i - 1) p]) /\
    (i = 1 -> prev = []) /\
    (i < Z.of_nat (length pages) ->
       exists n, page pages (i + 1) = Some n
                 /\ next = [entry "Next" (i + 1) n]) /\
    (i = Z.of_nat (length pages) -> next = []).
Proof.
  intros Hi.
  destruct (page_in_range pages i Hi) as (cur & Hcur & Icur).
  unfold context_texts.
  destruct (1 <? i) eqn:Hprev; destruct (i <? Z.of_nat (length pages)) eqn:Hnext;
    try apply Z.ltb_lt in Hprev; try apply Z.ltb_ge in Hprev;
    try apply Z.ltb_lt in Hnext; try apply Z.ltb_ge in Hnext.
  - destruct (page_in_range pages (i - 1) ltac:(lia)) as (p & Hp & Ip).
    destruct (page_in_range pages (i + 1) ltac:(lia)) as (n & Hn & In').
    replace (i - 1 - 1) with (i - 2) in Ip by lia.
    replace (i + 1 - 1) with i in In' by lia.
    rewrite Ip, bind_Ok, Icur, bind_Ok, In', bind_Ok.
    exists cur, [entry "Prev" (i - 1) p], [entry "Next" (i + 1) n].
    repeat split; eauto; lia.
  - destruct (page_in_range pages (i - 1) ltac:(lia)) as (p & Hp & Ip).
    replace (i - 1 - 1) with (i - 2) in Ip by lia.
    rewrite Ip, bind_Ok, Icur, bind_Ok.
    exists cur, [entry "Prev" (i - 1) p], [].
    repeat split; eauto; lia.
  - destruct (page_in_range pages (i + 1) ltac:(lia)) as (n & Hn & In').
    replace (i + 1 - 1) with i in In' by lia.
    rewrite bind_Ok, Icur, bind_Ok, In', bind_Ok.
    exists cur, [], [entry "Next" (i + 1) n].
    repeat split; eauto; lia.
  - rewrite bind_Ok, Icur, bind_Ok.
    exists cur, [], [].
    repeat split; eauto; lia.
Qed.




(** C2. For a valid selected index, every in-range position of the window
    contributes its labelled entry whatever its page text is, the empty
    string included (the entry is then the label line with an empty
    body): the list that is joined is the list that was built, nothing is
    filtered out, and it has one entry per in-range position. *)
Theorem empty_pages_keep_their_entry (pages : list string) (i : Z) :
  1 <= i <= Z.of_nat (length pages) ->
  exists es,
    context_texts pages i = Ok es /\
    joined_entries pages i = Ok es /\
    context_text pages i = Ok (join SEP es) /\
    Z.of_nat (length es)
    = 1 + (if 1 <? i then 1 else 0)
        + (if i <? Z.of_nat (length pages) then 1 else 0) /\
    (forall k label body,
        In (k, label) (window_positions i) ->
        page pages k = Some body ->
        In (entry label k body) es) /\
    (forall k label,
        In (k, label) (window_positions i) ->
        page pages k = Some "" ->
        In ("[" +:+ label +:+ ": Page " +:+ str_int k +:+ "]" +:+ nl) es).
Proof.
  intros Hi.
  destruct (context_texts_valid pages i Hi)
    as (cur & prev & next & Hcur & Hctx & Hp1 & Hp0 & Hn1 & Hn0).
  assert (Hall : forall k label body,
             In (k, label) (window_positions i) ->
             page pages k = Some body ->
             In (entry label k body) (prev ++ [entry "Current" i cur] ++ next)).
  { intros k label body Hk Hb.
    destruct Hk as [E|[E|[E|[]]]]; inversion E; subst k label; clear E.
    - assert (1 < i) as Hlt.
      { unfold page in Hb. destruct (i - 1 <? 1) eqn:C; [discriminate|].
        apply Z.ltb_ge in C. lia. }
      destruct (Hp1 Hlt) as (p & Hp & ->).
      rewrite Hp in Hb. inversion Hb; subst. left. reflexivity.
    - rewrite Hcur in Hb. inversion Hb; subst.
      apply in_or_app. right. left. reflexivity.
    - assert (i < Z.of_nat (length pages)) as Hlt.
      { unfold page in Hb. destruct (i + 1 <? 1) eqn:C; [discriminate|].
        apply lookup_lt_Some in Hb. lia. }
      destruct (Hn1 Hlt) as (n & Hn & ->).
      rewrite Hn in Hb. inversion Hb; subst.
      apply in_or_app. right. right. left. reflexivity. }
  assert (Hkeep : List.filter truthy (prev ++ [entry "Current" i cur] ++ next)
                  = prev ++ [entry "Current" i cur] ++ next).
  { apply forallb_filter_id, forallb_forall. intros t Ht.
    destruct (Z.eq_dec i 1) as [E1|E1];
      destruct (Z.eq_dec i (Z.of_nat (length pages))) as [E2|E2].
    - rewrite (Hp0 E1), (Hn0 E2) in Ht. destruct Ht as [<-|[]]. reflexivity.
    - destruct (Hn1 ltac:(lia)) as (n & _ & En).
      rewrite (Hp0 E1), En in Ht. destruct Ht as [<-|[<-|[]]]; reflexivity.
    - destruct (Hp1 ltac:(lia)) as (p & _ & Ep).
      rewrite Ep, (Hn0 E2) in Ht. destruct Ht as [<-|[<-|[]]]; reflexivity.
    - destruct (Hp1 ltac:(lia)) as (p & _ & Ep).
      destruct (Hn1 ltac:(lia)) as (n & _ & En).
      rewrite Ep, En in Ht. destruct Ht as [<-|[<-|[<-|[]]]]; reflexivity. }
  exists (prev ++ [entry "Current" i cur] ++ next).
  split; [exact Hctx|].
  split; [unfold joined_entries; rewrite Hctx, bind_Ok, Hkeep; reflexivity|].
  split; [unfold context_text, joined_entries;
          rewrite Hctx, !bind_Ok, Hkeep; reflexivity|].
  split.
  - rewrite !length_app. simpl length.
    destruct (1 <? i) eqn:C1; destruct (i <? Z.of_nat (length pages)) eqn:C2;
      try apply Z.ltb_lt in C1; try apply Z.ltb_ge in C1;
      try apply Z.ltb_lt in C2; try apply Z.ltb_ge in C2.
    + destruct (Hp1 C1) as (p & _ & ->). destruct (Hn1 C2) as (n & _ & ->).
      reflexivity.
    + destruct (Hp1 C1) as (p & _ & ->). rewrite Hn0 by lia. reflexivity.
    + rewrite Hp0 by lia. destruct (Hn1 C2) as (n & _ & ->). reflexivity.
    + rewrite Hp0, Hn0 by lia. reflexivity.
  - split; [exact Hall|].
    intros k label Hk He.
    specialize (Hall k label "" Hk He).
    unfold entry in Hall.
    replace ("[" +:+ label +:+ ": Page " +:+ str_int k +:+ "]" +:+ nl)
      with ("[" +:+ label +:+ ": Page " +:+ str_int k +:+ "]" +:+ nl +:+ "");
      [exact Hall|reflexivity].
Qed.


(** A blank page between two pages with text, and a blank page selected. *)
Example window_blank_neighbour :
  context_text ["a"; ""; "c"] 1
  = Ok ("[Current: Page 1]" +:+ nl +:+ "a" +:+ SEP
        +:+ "[Next: Page 2]" +:+ nl).
Proof. reflexivity. Qed.

Lemma empty_pages_keep_their_entry_witness :
  let pages := ["a"; ""; "c"] in
  1 <= 2 <= Z.of_nat (length pages) /\
  exists es,
    context_texts pages 2 = Ok es /\
    joined_entries pages 2 = Ok es /\
    context_text pages 2 = Ok (join SEP es) /\
    Z.of_nat (length es)
    = 1 + (if 1 <? 2 then 1 else 0)
        + (if 2 <? Z.of_nat (length pages) then 1 else 0) /\
    (forall k label body,
        In (k, label) (window_positions 2) ->
        page pages k = Some body ->
        In (entry label k body) es) /\
    (forall k label,
        In (k, label) (window_positions 2) ->
        page pages k = Some "" ->
        In ("[" +:+ label +:+ ": Page " +:+ str_int k +:+ "]" +:+ nl) es).
Proof.
  intros pages.
  assert (H : 1 <= 2 <= Z.of_nat (length pages)) by (simpl; lia).
  split; [exact H | exact (empty_pages_keep_their_entry pages 2 H)].
Defined.

End ContextProps.

(** ** 7.3 Stripping *)

Module StripProps.
Import Extract.

Lemma lstrip_eq (s : string) :
  lstrip s = match space_prefix s with
             | Some r => lstrip r
             | None => s
             end.
Proof.
  destruct s as [|c r]; [reflexivity|].
  unfold space_prefix. cbn [lstrip].
  destruct (isspace c); [reflexivity|].
  destruct r as [|d r2]; [reflexivity|].
  destruct (isspace2 c d); [reflexivity|].
  destruct r2 as [|e r3]; [reflexivity|].
  destruct (isspace3 c d e); reflexivity.
Qed.

(** A white-space character at the head of a string is one, two or three
    bytes, and is found again in front of any other text. *)
Lemma space_prefix_unit (s r : string) :
  space_prefix s = Some r ->
  exists u, s = u +:+ r /\ u <> "" /\
            forall t, space_prefix (u +:+ t) = Some t.
Proof.
  destruct s as [|c [|d [|e r3]]]; cbn [space_prefix]; [discriminate|..].
  - destruct (isspace c) eqn:H1; [|discriminate]. intros [= <-].
    exists (String c ""). repeat split; [discriminate|]. intros t.
    change (String c "" +:+ t) with (String c t).
    cbn [space_prefix]. rewrite H1. reflexivity.
  - destruct (isspace c) eqn:H1.
    + intros [= <-]. exists (String c ""). repeat split; [discriminate|].
      intros t. change (String c "" +:+ t) with (String c t).
      cbn [space_prefix]. rewrite H1. reflexivity.
    + destruct (isspace2 c d) eqn:H2; [|discriminate]. intros [= <-].
      exists (String c (String d "")). repeat split; [discriminate|].
      intros t.
      change (String c (String d "") +:+ t) with (String c (String d t)).
      cbn [space_prefix]. rewrite H1, H2. reflexivity.
  - destruct (isspace c) eqn:H1.
    + intros [= <-]. exists (String c ""). repeat split; [discriminate|].
      intros t. change (String c "" +:+ t) with (String c t).
      cbn [space_prefix]. rewrite H1. reflexivity.
    + destruct (isspace2 c d) eqn:H2.
      * intros [= <-]. exists (String c (String d "")).
        repeat split; [discriminate|]. intros t.
        change (String c (String d "") +:+ t) with (String c (String d t)).
        cbn [space_prefix]. rewrite H1, H2. reflexivity.
      * destruct (isspace3 c d e) eqn:H3; [|discriminate]. intros [= <-].
        exists (String c (String d (String e ""))).
        repeat split; [discriminate|]. intros t.
        change (String c (String d (String e "")) +:+ t)
          with (String c (String d (String e t))).
        cbn [space_prefix]. rewrite H1, H2, H3. reflexivity.
Qed.

Lemma append_length (a b : string) :
  String.length (a +:+ b) = (String.length a + String.length b)%nat.
Proof.
  induction a as [|c a IH]; [reflexivity|].
  change (S (String.length (a +:+ b))
          = S (String.length a + String.length b)).
  rewrite IH. reflexivity.
Qed.

Lemma append_assoc (a b c : string) : (a +:+ b) +:+ c = a +:+ b +:+ c.
Proof.
  induction a as [|x a IH]; [reflexivity|].
  change (String x ((a +:+ b) +:+ c) = String x (a +:+ b +:+ c)).
  rewrite IH. reflexivity.
Qed.

Lemma space_prefix_shorter (s r : string) :
  space_prefix s = Some r -> (String.length r < String.length s)%nat.
Proof.
  intros H. destruct (space_prefix_unit s r H) as (u & -> & Hu & _).
  rewrite append_length. destruct u; [congruence|simpl; lia].
Qed.

Lemma space_prefix_app (a r b : string) :
  space_prefix a = Some r -> space_prefix (a +:+ b) = Some (r +:+ b).
Proof.
  intros H. destruct (space_prefix_unit a r H) as (u & -> & _ & Hu).
  rewrite append_assoc. apply Hu.
Qed.

(** Induction along the white space a string starts with. *)
Lemma space_ind (P : string -> Prop) :
  P "" ->
  (forall s r, space_prefix s = Some r -> P r -> P s) ->
  (forall s, s <> "" -> space_prefix s = None -> P s) ->
  forall s, P s.
Proof.
  intros H0 Hstep Hstop s.
  remember (String.length s) as n eqn:Hn. revert s Hn.
  induction n as [n IH] using lt_wf_ind. intros s Hn.
  destruct (space_prefix s) as [r|] eqn:Hs.
  - apply (Hstep s r Hs). apply (IH (String.length r)); [|reflexivity].
    subst n. apply space_prefix_shorter, Hs.
  - destruct s as [|c s]; [exact H0|]. apply Hstop; [discriminate|exact Hs].
Qed.

Lemma all_space_step (s r : string) :
  space_prefix s = Some r -> all_space s = all_space r.
Proof. intros H. unfold all_space. rewrite (lstrip_eq s), H. reflexivity. Qed.

Lemma all_space_stop (s : string) :
  s <> "" -> space_prefix s = None -> all_space s = false.
Proof.
  intros Hne H. unfold all_space. rewrite lstrip_eq, H.
  destruct s; [congruence|reflexivity].
Qed.

(** [all_space] holds of the sequences of white-space characters. *)
Lemma all_space_white (s : string) : all_space s = true <-> white s.
Proof.
  split.
  - induction s as [|s r Hs IH|s Hne Hs] using space_ind; intros H.
    + constructor.
    + apply (white_char s r Hs). apply IH.
      rewrite <- (all_space_step s r Hs). exact H.
    + rewrite (all_space_stop s Hne Hs) in H. discriminate.
  - induction 1 as [|s r Hs _ IH]; [reflexivity|].
    rewrite (all_space_step s r Hs). exact IH.
Qed.

Lemma lstrip_no_leading_space (s : string) :
  starts_with_space (lstrip s) = false.
Proof.
  unfold starts_with_space. induction s as [|s r Hs IH|s Hne Hs] using space_ind.
  - reflexivity.
  - rewrite lstrip_eq, Hs. exact IH.
  - rewrite lstrip_eq, Hs, Hs. reflexivity.
Qed.

Lemma lstrip_split (s : string) :
  exists pre, s = pre +:+ lstrip s /\ all_space pre = true.
Proof.
  induction s as [|s r Hs (pre & Hr & Hpre)|s Hne Hs] using space_ind.
  - exists "". split; reflexivity.
  - destruct (space_prefix_unit s r Hs) as (u & Hu & _ & Hall).
    exists (u +:+ pre). split.
    + rewrite lstrip_eq, Hs, append_assoc, <- Hr. exact Hu.
    + rewrite (all_space_step (u +:+ pre) pre (Hall pre)). exact Hpre.
  - exists "". rewrite lstrip_eq, Hs. split; reflexivity.
Qed.

Lemma all_space_app (a b : string) :
  all_space a = true -> all_space b = true -> all_space (a +:+ b) = true.
Proof.
  intros Ha Hb.
  induction a as [|a r Hs IH|a Hne Hs] using space_ind.
  - exact Hb.
  - rewrite (all_space_step _ _ (space_prefix_app a r b Hs)).
    apply IH. rewrite <- (all_space_step a r Hs). exact Ha.
  - rewrite (all_space_stop a Hne Hs) in Ha. discriminate.
Qed.

Lemma lstrip_all_space (s : string) : all_space s = true -> lstrip s = "".
Proof. unfold all_space. destruct (lstrip s); [reflexivity|discriminate]. Qed.

Lemma lstrip_fixed (s : string) : starts_with_space s = false -> lstrip s = s.
Proof.
  unfold starts_with_space. intros H. rewrite lstrip_eq.
  destruct (space_prefix s); [discriminate|reflexivity].
Qed.

Lemma lstrip_idempotent (s : string) : lstrip (lstrip s) = lstrip s.
Proof. apply lstrip_fixed, lstrip_no_leading_space. Qed.

Lemma lstrip_preserves_all_space (s : string) :
  all_space (lstrip s) = true -> all_space s = true.
Proof. unfold all_space. rewrite lstrip_idempotent. auto. Qed.

Lemma rstrip_cons (c : ascii) (r : string) :
  rstrip (String c r)
  = if all_space (String c r) then "" else String c (rstrip r).
Proof. reflexivity. Qed.

Lemma rstrip_split (s : string) :
  exists post, s = rstrip s +:+ post /\ all_space post = true.
Proof.
  induction s as [|c r (post & Hr & Hpost)]; [exists ""; split; reflexivity|].
  rewrite rstrip_cons. destruct (all_space (String c r)) eqn:Hall.
  - exists (String c r). split; [reflexivity|exact Hall].
  - exists post. split; [|exact Hpost].
    change (String c r = String c (rstrip r +:+ post)). rewrite <- Hr.
    reflexivity.
Qed.

Lemma rstrip_empty (s : string) : rstrip s = "" -> all_space s = true.
Proof.
  destruct s as [|c r]; [reflexivity|]. rewrite rstrip_cons.
  destruct (all_space (String c r)); [reflexivity|discriminate].
Qed.

Lemma rstrip_no_trailing_space (s : string) :
  ends_with_space (rstrip s) = false.
Proof.
  induction s as [|c r IH]; [reflexivity|].
  rewrite rstrip_cons. destruct (all_space (String c r)) eqn:Hall;
    [reflexivity|].
  change (all_space (String c (rstrip r)) || ends_with_space (rstrip r)
          = false).
  rewrite IH, orb_false_r.
  destruct (all_space (String c (rstrip r))) eqn:H; [|reflexivity].
  destruct (rstrip_split r) as (post & Hr & Hpost).
  assert (all_space (String c (rstrip r) +:+ post) = true) as E
    by (apply all_space_app; assumption).
  change (String c (rstrip r) +:+ post) with (String c (rstrip r +:+ post)) in E.
  rewrite <- Hr, Hall in E. discriminate.
Qed.

Lemma rstrip_fixed (s : string) : ends_with_space s = false -> rstrip s = s.
Proof.
  induction s as [|c r IH]; [reflexivity|].
  intros H. change (all_space (String c r) || ends_with_space r = false) in H.
  apply orb_false_elim in H as [Hall Hr].
  rewrite rstrip_cons, Hall, (IH Hr). reflexivity.
Qed.

(** Stripping on the right leaves a first character that is not a space
    where it is. *)
Lemma rstrip_keeps_head (s : string) :
  starts_with_space s = false -> starts_with_space (rstrip s) = false.
Proof.
  unfold starts_with_space. intros H.
  destruct (space_prefix (rstrip s)) as [x|] eqn:Hx; [|reflexivity].
  destruct (rstrip_split s) as (post & Hs & _).
  rewrite Hs, (space_prefix_app _ _ post Hx) in H. discriminate.
Qed.

Lemma strip_stripped (s : string) : stripped (strip s).
Proof.
  unfold stripped, strip. split.
  - apply rstrip_keeps_head, lstrip_no_leading_space.
  - apply rstrip_no_trailing_space.
Qed.

(** A string of whitespace strips to the empty string, and only such a
    string does. *)
Lemma strip_all_space (s : string) : all_space s = true -> strip s = "".
Proof. intros H. unfold strip. rewrite lstrip_all_space by exact H. reflexivity. Qed.

Lemma strip_empty_iff (s : string) : strip s = "" <-> all_space s = true.
Proof.
  split; [|apply strip_all_space].
  intros H. apply lstrip_preserves_all_space, rstrip_empty, H.
Qed.

Lemma strip_split (s : string) :
  exists pre post,
    s = pre +:+ strip s +:+ post /\
    all_space pre = true /\ all_space post = true.
Proof.
  destruct (lstrip_split s) as (pre & Hs & Hpre).
  destruct (rstrip_split (lstrip s)) as (post & Hl & Hpost).
  exists pre, post. unfold strip. rewrite <- Hl, <- Hs. auto.
Qed.

Lemma strip_fixed (s : string) : stripped s -> strip s = s.
Proof.
  intros [H1 H2]. unfold strip. rewrite (lstrip_fixed s H1).
  apply rstrip_fixed, H2.
Qed.

End StripProps.

(** ** 7.4 Extraction and its cache *)

Module ExtractProps.
Import Extract Script StripProps.

(** pdfplumber's stand-in on its first document: the texts are stripped,
    the page without text gives the empty string. *)
Example read_three_pages :
  read_pdf_pages sample_pdfplumber
    {[ "ch1.pdf" := {| data := Ok (list_byte_of_string "%PDF three");
                       modified := 1700000000 |} ]}
    "ch1.pdf" 1700000000
  = Ok ["Intro text."; ""; "Summary text."].
Proof. reflexivity. Qed.

(** A page padded with a no-break space and an ideographic space, and a
    page of such spaces only. *)
Example read_wide_spaces :
  read_pdf_pages sample_pdfplumber
    {[ "ch2.pdf" := {| data := Ok (list_byte_of_string "%PDF spaces");
                       modified := 5 |} ]}
    "ch2.pdf" 5
  = Ok ["Wide"; ""].
Proof. reflexivity. Qed.

(** A page whose extraction raises, and a file that cannot be read. *)
Example read_torn_page :
  read_pdf_pages sample_pdfplumber
    {[ "ch3.pdf" := {| data := Ok (list_byte_of_string "%PDF torn");
                       modified := 5 |} ]}
    "ch3.pdf" 5
  = Raise (LibraryError "PSSyntaxError" "Invalid dictionary").
Proof. reflexivity. Qed.

Example read_locked_file :
  read_pdf_pages sample_pdfplumber
    {[ "ch4.pdf" :=
         {| data := Raise (OSError "[Errno 13] Permission denied: 'ch4.pdf'");
            modified := 5 |} ]}
    "ch4.pdf" 5
  = Raise (OSError "[Errno 13] Permission denied: 'ch4.pdf'").
Proof. reflexivity. Qed.

(** The loop of lines 62-64 appends one text per page, when every
    [extract_text] returns. *)
Lemma extract_loop (pdf : list pdf_page) (txts : list (option string))
    (texts : list string) :
  extracts pdf txts ->
  extract_pages texts pdf
  = Ok (texts ++ map (fun txt => strip (text_or_empty txt)) txts).
Proof.
  unfold extracts. revert txts texts.
  induction pdf as [|pg pdf IH]; intros [|txt txts] texts H;
    try discriminate H.
  - simpl. rewrite app_nil_r. reflexivity.
  - injection H as Hpg H. cbn [extract_pages]. rewrite Hpg, bind_Ok.
    rewrite (IH txts _ H). cbn [map]. rewrite <- app_assoc. reflexivity.
Qed.


Lemma read_pdf_pages_valid (pdfplumber : pdf_library) (fs : filesystem)
    (file_path : string) (mtime : Z) (f : file) (bytes : list Byte.byte)
    (pdf : list pdf_page) (txts : list (option string)) :
  fs !! file_path = Some f ->
  data f = Ok bytes ->
  pdfplumber bytes = Ok pdf ->
  extracts pdf txts ->
  read_pdf_pages pdfplumber fs file_path mtime
  = Ok (map (fun txt => strip (text_or_empty txt)) txts).
Proof.
  intros Hf Hd Hpdf Hx. unfold read_pdf_pages, read_bytes.
  rewrite Hf, Hd, bind_Ok, Hpdf, bind_Ok.
  rewrite (extract_loop pdf txts [] Hx). reflexivity.
Qed.




(** A hit: the stored value comes back, the store and the list of calls
    that ran the body stay as they were. *)
Lemma cache_data_hit {V} (f : string -> Z -> res V) (c : cache V)
    (file_path : string) (mtime : Z) (v : V) :
  store c !! (file_path, mtime) = Some v ->
  cache_data f c file_path mtime = (Ok v, c).
Proof. intros H. unfold cache_data. rewrite H. reflexivity. Qed.

(** A miss: the body runs once, and its value is stored when it returns. *)
Lemma cache_data_miss {V} (f : string -> Z -> res V) (c : cache V)
    (file_path : string) (mtime : Z) :
  store c !! (file_path, mtime) = None ->
  fst (cache_data f c file_path mtime) = f file_path mtime /\
  ran (snd (cache_data f c file_path mtime))
  = ran c ++ [(file_path, mtime)].
Proof.
  intros H. unfold cache_data. rewrite H.
  destruct (f file_path mtime); split; reflexivity.
Qed.

(** After a call that returned, the value is in the store under the pair
    of the call, and the body ran at most once. *)
Lemma cache_data_stores {V} (f : string -> Z -> res V) (c c1 : cache V)
    (file_path : string) (mtime : Z) (v : V) :
  cache_data f c file_path mtime = (Ok v, c1) ->
  store c1 !! (file_path, mtime) = Some v /\
  (length (ran c1) <= S (length (ran c)))%nat /\
  (forall k, k <> (file_path, mtime) -> store c1 !! k = store c !! k).
Proof.
  unfold cache_data.
  destruct (store c !! (file_path, mtime)) as [w|] eqn:Hc.
  - intros [= <- <-]. repeat split; [exact Hc | lia].
  - destruct (f file_path mtime) as [w|e]; intros [= <- <-]; simpl.
    repeat split.
    + apply lookup_insert_eq.
    + rewrite length_app. simpl. lia.
    + intros k Hk. apply lookup_insert_ne. congruence.
Qed.

(** The session of the specification's tests, on pdfplumber's stand-in:
    the chapter is read, read again, then changed on disk and read under
    its new modification time. *)
Example cache_session :
  let v1 := {| data := Ok (list_byte_of_string "%PDF three"); modified := 100 |} in
  let v2 := {| data := Ok (list_byte_of_string "%PDF blank"); modified := 200 |} in
  let fs1 : filesystem := {[ "ch1.pdf" := v1 ]} in
  let fs2 : filesystem := {[ "ch1.pdf" := v2 ]} in
  let '(r1, c1) :=
    cached_read_pdf_pages sample_pdfplumber fs1 empty_cache "ch1.pdf" 100 in
  let '(r2, c2) :=
    cached_read_pdf_pages sample_pdfplumber fs1 c1 "ch1.pdf" 100 in
  let '(r3, c3) :=
    cached_read_pdf_pages sample_pdfplumber fs2 c2 "ch1.pdf" 200 in
  r1 = Ok ["Intro text."; ""; "Summary text."] /\ r2 = r1 /\ r3 = Ok [] /\
  ran c1 = [("ch1.pdf", 100)] /\ ran c2 = ran c1 /\
  ran c3 = [("ch1.pdf", 100); ("ch1.pdf", 200)].
Proof. vm_compute. repeat split. Qed.

(** C5, as stated: after a query for (path, mtime), a query for the same
    path under any other modification time runs a fresh extraction.  It
    does not when the path was read under that other time earlier in the
    session: the pair is still stored, and its old page texts are
    returned instead of those of the file as it is now. *)
Lemma earlier_pair_is_served_again :
  ~ (forall (pdfplumber : pdf_library) (fs1 fs2 : filesystem)
            (c c1 : cache (list string)) (file_path : string)
            (mtime mtime' : Z) (pages : list string),
        cached_read_pdf_pages pdfplumber fs1 c file_path mtime
        = (Ok pages, c1) ->
        mtime' <> mtime ->
        cached_read_pdf_pages pdfplumber fs2 c1 file_path mtime
        = (Ok pages, c1) /\
        fst (cached_read_pdf_pages pdfplumber fs2 c1 file_path mtime')
        = read_pdf_pages pdfplumber fs2 file_path mtime').
Proof.
  intros H.
  pose (fs0 := {[ "ch1.pdf" :=
                    {| data := Ok (list_byte_of_string "%PDF three");
                       modified := 200 |} ]} : filesystem).
  pose (fs1 := {[ "ch1.pdf" :=
                    {| data := Ok (list_byte_of_string "%PDF blank");
                       modified := 100 |} ]} : filesystem).
  pose (fs2 := {[ "ch1.pdf" :=
                    {| data := Ok (list_byte_of_string "%PDF spaces");
                       modified := 200 |} ]} : filesystem).
  pose (c := snd (cached_read_pdf_pages sample_pdfplumber fs0 empty_cache
                    "ch1.pdf" 200)).
  destruct (H sample_pdfplumber fs1 fs2 c
              (snd (cached_read_pdf_pages sample_pdfplumber fs1 c
                      "ch1.pdf" 100))
              "ch1.pdf" 100 200 [] eq_refl ltac:(discriminate))
    as [_ Hfresh].
  vm_compute in Hfresh. discriminate Hfresh.
Qed.

(** C5, amended.  The cache is keyed by the pair (path, mtime).  When a
    query returned a sequence of page texts, a second query with the same
    pair returns the same sequence and leaves the cache as it was,
    whatever the file holds by then: the extraction ran at most once over
    the two queries.  A query for the same path under a changed
    modification time, one the path is not stored under, runs the
    extraction on the file as it is now, returns its result instead of
    the stored sequence, and counts as one more extraction. *)
Theorem cache_keyed_by_path_and_mtime (pdfplumber : pdf_library)
    (fs1 fs2 : filesystem) (c c1 : cache (list string))
    (file_path : string) (mtime mtime' : Z) (pages : list string) :
  cached_read_pdf_pages pdfplumber fs1 c file_path mtime = (Ok pages, c1) ->
  mtime' <> mtime ->
  store c !! (file_path, mtime') = None ->
  cached_read_pdf_pages pdfplumber fs2 c1 file_path mtime = (Ok pages, c1) /\
  (length (ran c1) <= S (length (ran c)))%nat /\
  fst (cached_read_pdf_pages pdfplumber fs2 c1 file_path mtime')
  = read_pdf_pages pdfplumber fs2 file_path mtime' /\
  ran (snd (cached_read_pdf_pages pdfplumber fs2 c1 file_path mtime'))
  = ran c1 ++ [(file_path, mtime')].
Proof.
  unfold cached_read_pdf_pages. intros Hfirst Hne Hfresh.
  destruct (cache_data_stores _ _ _ _ _ _ Hfirst) as (Hstored & Hran & Hother).
  split; [apply cache_data_hit, Hstored|].
  split; [exact Hran|].
  apply cache_data_miss.
  rewrite Hother by congruence. exact Hfresh.
Qed.

Lemma cache_keyed_by_path_and_mtime_witness :
  let v1 := {| data := Ok (list_byte_of_string "%PDF three"); modified := 100 |} in
  let v2 := {| data := Ok (list_byte_of_string "%PDF blank"); modified := 200 |} in
  let fs1 : filesystem := {[ "ch1.pdf" := v1 ]} in
  let fs2 : filesystem := {[ "ch1.pdf" := v2 ]} in
  let pages := ["Intro text."; ""; "Summary text."] in
  let c1 := {| store := {[ ("ch1.pdf", 100) := pages ]};
               ran := [("ch1.pdf", 100)] |} in
  cached_read_pdf_pages sample_pdfplumber fs1 empty_cache "ch1.pdf" 100
  = (Ok pages, c1) /\
  cached_read_pdf_pages sample_pdfplumber fs2 c1 "ch1.pdf" 100
  = (Ok pages, c1) /\
  (length (ran c1) <= S (length (ran (@empty_cache (list string)))))%nat /\
  fst (cached_read_pdf_pages sample_pdfplumber fs2 c1 "ch1.pdf" 200)
  = read_pdf_pages sample_pdfplumber fs2 "ch1.pdf" 200 /\
  ran (snd (cached_read_pdf_pages sample_pdfplumber fs2 c1 "ch1.pdf" 200))
  = ran c1 ++ [("ch1.pdf", 200)].
Proof.
  intros v1 v2 fs1 fs2 pages c1.
  assert (H1 : cached_read_pdf_pages sample_pdfplumber fs1 empty_cache
                 "ch1.pdf" 100 = (Ok pages, c1)) by reflexivity.
  split; [exact H1|].
  apply (cache_keyed_by_path_and_mtime sample_pdfplumber fs1 fs2
           empty_cache c1 "ch1.pdf" 100 200 pages H1);
    [discriminate | reflexivity].
Defined.

(** A document without pages is reported and the script stops. *)
Example blank_document_is_reported :
  load_chapter sample_pdfplumber
    {[ "blank.pdf" := {| data := Ok (list_byte_of_string "%PDF blank");
                         modified := 5 |} ]}
    empty_cache "blank.pdf"
  = ([error "Couldn't read any pages from this PDF."], Stop,
     {| store := {[ ("blank.pdf", 5) := [] ]}; ran := [("blank.pdf", 5)] |}).
Proof. reflexivity. Qed.






End ExtractProps.

(** ** 7.5 The templates *)

Module TemplateProps.
Import Templates.

Example summarize_template :
  question "Summarize key points" "what I typed before"
  = Ok ("Summarize the most important ideas on this page in simple bullet points for a 9th grade student.",
        [info "Template selected: **Summarize key points**"]).
Proof. reflexivity. Qed.

(** A label that is neither offered nor in the catalog would raise. *)
Example unknown_label :
  question "Sing a song" "" = Raise (KeyError "Sing a song").
Proof. reflexivity. Qed.

Lemma keys_distinct : NoDup (keys QUESTION_TEMPLATES).
Proof. apply (bool_decide_unpack _). vm_compute. exact I. Qed.

(** C8. The catalog has exactly 8 entries, under 8 distinct labels.
    Selecting a label of the catalog makes the question the catalog's
    string for that label, whatever text was typed before; for
    "Summarize key points" it is the fixed summary request.  "Custom
    question" is not a label of the catalog: with it the question is the
    typed text. *)
Theorem template_catalog :
  length QUESTION_TEMPLATES = 8%nat /\
  NoDup (keys QUESTION_TEMPLATES) /\
  ~ In "Custom question" (keys QUESTION_TEMPLATES) /\
  (forall label text typed,
      In (label, text) QUESTION_TEMPLATES ->
      question label typed
      = Ok (text, [info ("Template selected: **" +:+ label +:+ "**")])) /\
  (forall typed,
      question "Summarize key points" typed
      = Ok ("Summarize the most important ideas on this page in simple bullet points for a 9th grade student.",
            [info "Template selected: **Summarize key points**"])) /\
  (forall typed, question "Custom question" typed = Ok (typed, [])).
Proof.
  split; [reflexivity|].
  split; [exact keys_distinct|].
  split.
  { simpl. intros H. repeat (destruct H as [H|H]; [discriminate H|]).
    exact H. }
  split.
  { intros label text typed H. simpl in H.
    repeat (destruct H as [H|H]; [inversion H; subst; reflexivity|]).
    destruct H. }
  split; intros typed; reflexivity.
Qed.

End TemplateProps.

(** ** 7.6 The call to the model *)

Module LLMProps.
Import LLM StripProps.

Example endpoint_down :
  call_llm (Some sdk_down) (Some "sk-test") "gpt-4o-mini" "ctx" "Why?"
  = (Ok "LLM error: Connection error.",
     [ {| model := "gpt-4o-mini"; messages := compose "ctx" "Why?";
          temperature := (3 # 10)%Q |} ]).
Proof. reflexivity. Qed.

Example answer_without_choice :
  fst (call_llm (Some sdk_no_choice) (Some "sk-test") "gpt-4o-mini" "ctx" "Why?")
  = Ok "LLM error: list index out of range".
Proof. reflexivity. Qed.

Example answer_is_stripped :
  fst (call_llm (Some sdk_echo) (Some "sk-test") "gpt-4o-mini" "ctx" "Why?")
  = Ok "- gpt-4o-mini answers.".
Proof. reflexivity. Qed.

Example no_key_with_sdk :
  call_llm (Some sdk_echo) None "gpt-4o-mini" "ctx" "Why?"
  = (Ok "No API key provided. Add it in the sidebar or set OPENAI_API_KEY.",
     []).
Proof. reflexivity. Qed.

Example client_cannot_be_made :
  call_llm (Some sdk_broken) (Some "sk-test") "gpt-4o-mini" "ctx" "Why?"
  = (Raise (LibraryError "TypeError"
              "Client.__init__() got an unexpected keyword argument 'proxies'"),
     []).
Proof. reflexivity. Qed.

Example no_key_without_sdk :
  call_llm None None "gpt-4o-mini" "ctx" "Why?"
  = (Ok "OpenAI SDK not found. Run: pip install openai>=1.0.0", []).
Proof. reflexivity. Qed.




(** C7, as stated: with no credential the answer names the credential.
    It does not when the SDK could not be imported: line 126 answers
    before line 128 looks at the key. *)
Lemma missing_sdk_answers_first :
  ~ (forall (OpenAI : option sdk) (api_key : option string)
            (model context_text question : string),
        no_key api_key = true ->
        exists answer,
          fst (call_llm OpenAI api_key model context_text question)
          = Ok answer /\
          names_credential answer = true).
Proof.
  intros H.
  destruct (H None None "gpt-4o-mini" "ctx" "Why?" eq_refl)
    as (answer & Ha & Hn).
  simpl in Ha. injection Ha as <-. vm_compute in Hn. discriminate Hn.
Qed.

(** C7, amended. With no credential (no value, or the empty string)
    [call_llm] sends nothing and returns, without raising, a fixed string:
    "No API key provided..." when the SDK was imported, which names the
    credential, and "OpenAI SDK not found..." when it was not.  For a
    question that is not blank the script shows that string as the answer
    and goes on. *)
Theorem missing_key_answer (OpenAI : option sdk) (api_key : option string)
    (model context_text question : string) :
  no_key api_key = true ->
  exists answer,
    call_llm OpenAI api_key model context_text question = (Ok answer, []) /\
    answer
    = match OpenAI with
      | Some _ =>
          "No API key provided. Add it in the sidebar or set OPENAI_API_KEY."
      | None => "OpenAI SDK not found. Run: pip install openai>=1.0.0"
      end /\
    (OpenAI <> None -> names_credential answer = true) /\
    (all_space question = false ->
     on_ask OpenAI api_key model context_text question true
     = ([spinner "Thinking..."; markdown "**Answer:**"; write answer],
        Continue tt, [])).
Proof.
  intros Hkey.
  assert (Hcall : call_llm OpenAI api_key model context_text question
            = (Ok match OpenAI with
                  | Some _ =>
                      "No API key provided. Add it in the sidebar or set OPENAI_API_KEY."
                  | None => "OpenAI SDK not found. Run: pip install openai>=1.0.0"
                  end, [])).
  { unfold call_llm. destruct OpenAI; [rewrite Hkey|]; reflexivity. }
  eexists. split; [exact Hcall|]. split; [reflexivity|]. split.
  - destruct OpenAI; [reflexivity|congruence].
  - intros Hq. unfold on_ask.
    destruct (strip question) eqn:Hs.
    + apply strip_empty_iff in Hs. congruence.
    + simpl. rewrite Hcall. reflexivity.
Qed.

Lemma missing_key_answer_witness :
  exists answer,
    call_llm (Some sdk_echo) (Some "") "gpt-4o-mini" "ctx" "Why?"
    = (Ok answer, []) /\
    answer
    = "No API key provided. Add it in the sidebar or set OPENAI_API_KEY." /\
    (Some sdk_echo <> None -> names_credential answer = true) /\
    (all_space "Why?" = false ->
     on_ask (Some sdk_echo) (Some "") "gpt-4o-mini" "ctx" "Why?" true
     = ([spinner "Thinking..."; markdown "**Answer:**"; write answer],
        Continue tt, [])).
Proof.
  apply (missing_key_answer (Some sdk_echo) (Some "") "gpt-4o-mini" "ctx"
           "Why?").
  reflexivity.
Defined.

(** The fixed parts of the system instruction around the sentence. *)
Lemma system_around_fallback :
  system
  = "You are a patient, friendly tutor for school students (elementary to high school). Answer as simply as possible using ONLY the provided text (which includes the selected page plus its neighbors). If the answer is not in the provided text, say: '"
    +:+ FALLBACK
    +:+ "' Prefer bullet points, short sentences, and clear examples. Avoid jargon.".
Proof. reflexivity. Qed.

(** C9. Every request [call_llm] sends starts with the same system
    instruction, whatever the context and the question are; that
    instruction quotes one sentence to answer with when the pages do not
    hold the answer, "I can't find this in the provided pages.", and
    quotes it once. *)
Theorem fallback_phrase_is_fixed (OpenAI : option sdk)
    (api_key : option string) (model context_text question : string)
    (req : request) :
  In req (snd (call_llm OpenAI api_key model context_text question)) ->
  messages req
  = [ {| role := "system"; content := system |};
      {| role := "user"; content := user context_text question |} ] /\
  contains FALLBACK system = true /\
  occurrences FALLBACK system = 1%nat /\
  FALLBACK = "I can't find this in the provided pages.".
Proof.
  intros Hreq. split; [|repeat split; vm_compute; reflexivity].
  unfold call_llm in Hreq. destruct OpenAI as [openai|]; [|destruct Hreq].
  destruct (no_key api_key); [destruct Hreq|].
  destruct (new_client openai (default "" api_key)); [|destruct Hreq].
  destruct Hreq as [<-|[]]. reflexivity.
Qed.

Lemma fallback_phrase_is_fixed_witness :
  let req := {| model := "gpt-4o-mini"; messages := compose "ctx" "Why?";
                temperature := (3 # 10)%Q |} in
  In req (snd (call_llm (Some sdk_echo) (Some "sk-test") "gpt-4o-mini"
                 "ctx" "Why?")) /\
  (messages req
   = [ {| role := "system"; content := system |};
       {| role := "user"; content := user "ctx" "Why?" |} ] /\
   contains FALLBACK system = true /\
   occurrences FALLBACK system = 1%nat /\
   FALLBACK = "I can't find this in the provided pages.").
Proof.
  intros req.
  assert (H : In req (snd (call_llm (Some sdk_echo) (Some "sk-test")
                             "gpt-4o-mini" "ctx" "Why?")))
    by (left; reflexivity).
  split; [exact H|].
  exact (fallback_phrase_is_fixed (Some sdk_echo) (Some "sk-test")
           "gpt-4o-mini" "ctx" "Why?" req H).
Defined.

(** A question with text is sent. *)
Example question_is_sent :
  on_ask (Some sdk_echo) (Some "sk-test") "gpt-4o-mini" "ctx" " Why? " true
  = ([spinner "Thinking..."; markdown "**Answer:**";
      write "- gpt-4o-mini answers."],
     Continue tt,
     [ {| model := "gpt-4o-mini"; messages := compose "ctx" " Why? ";
          temperature := (3 # 10)%Q |} ]).
Proof. reflexivity. Qed.

(** C10. When the button is pressed with a question that is empty or made
    of whitespace only, the script shows the warning "Please type or
    select a question." and nothing else: [call_llm] is not run, no
    request is sent, no answer is shown. *)
Theorem blank_question_is_not_sent (OpenAI : option sdk)
    (api_key : option string) (model_name context_text question : string) :
  all_space question = true ->
  on_ask OpenAI api_key model_name context_text question true
  = ([warning "Please type or select a question."], Continue tt, []).
Proof.
  intros Hq. unfold on_ask. rewrite (strip_all_space question Hq).
  reflexivity.
Qed.

(** A question of a space, a no-break space (U+00A0), an ideographic
    space (U+3000) and a newline. *)
Lemma blank_question_is_not_sent_witness :
  let blank := "  　" +:+ nl in
  all_space blank = true /\
  on_ask (Some sdk_echo) (Some "sk-test") "gpt-4o-mini" "ctx" blank true
  = ([warning "Please type or select a question."], Continue tt, []).
Proof.
  intros blank.
  assert (H : all_space blank = true) by reflexivity.
  split; [exact H|].
  exact (blank_question_is_not_sent (Some sdk_echo) (Some "sk-test")
           "gpt-4o-mini" "ctx" blank H).
Defined.

End LLMProps.

(** ** 7.7 The chapters folder *)

Module ListingProps.
Import Listing Pages StripProps.

(** A folder with an upper-case extension, a text file and a directory
    whose name ends in .pdf. *)
Example list_sample_folder :
  _list_pdfs ascii_lower [ {| name := "b.PDF"; is_file := true |};
               {| name := "notes.txt"; is_file := true |};
               {| name := "old.pdf"; is_file := false |};
               {| name := "02_Memory.pdf"; is_file := true |};
               {| name := "a.pdf"; is_file := true |} ] "/app/psychology_book"
  = [ "/app/psychology_book/02_Memory.pdf";
      "/app/psychology_book/a.pdf";
      "/app/psychology_book/b.PDF" ].
Proof. reflexivity. Qed.

Example basename_samples :
  basename "/app/book/ch1.pdf" = "ch1.pdf" /\ basename "ch1.pdf" = "ch1.pdf"
  /\ basename "/app/book/" = "" /\ path_join "/app" "/etc/x.pdf" = "/etc/x.pdf"
  /\ path_join "/app/" "x.pdf" = "/app/x.pdf" /\ path_join "" "x.pdf" = "x.pdf".
Proof. repeat split. Qed.

(** The loop of lines 40-43 keeps the PDF files, in listing order. *)
Lemma list_loop (lower : string -> string) (listing : list dir_entry)
    (path : string)
    (files : list string) :
  foldl (fun files e =>
           let full := path_join path (name e) in
           if is_file e && endswith ".pdf" (lower (name e))
           then files ++ [full] else files)
        files listing
  = files ++ map (fun e => path_join path (name e))
                 (List.filter (is_pdf lower) listing).
Proof.
  revert files. induction listing as [|e listing IH]; intros files; simpl.
  - rewrite app_nil_r. reflexivity.
  - rewrite IH. unfold is_pdf at 2.
    destruct (is_file e && endswith ".pdf" (lower (name e))); simpl.
    + rewrite <- app_assoc. reflexivity.
    + reflexivity.
Qed.

Lemma list_pdfs_unfold (lower : string -> string)
    (listing : list dir_entry) (path : string) :
  _list_pdfs lower listing path
  = sorted (sort_key lower) (map (fun e => path_join path (name e))
                         (List.filter (is_pdf lower) listing)).
Proof. unfold _list_pdfs. rewrite list_loop. reflexivity. Qed.

Lemma insert_sorted_perm key x l :
  Permutation (insert_sorted key x l) (x :: l).
Proof.
  induction l as [|y l IH]; simpl; [reflexivity|].
  destruct (String.ltb (key y) (key x)); [|reflexivity].
  rewrite IH. apply perm_swap.
Qed.

Lemma sorted_perm key l : Permutation (sorted key l) l.
Proof.
  induction l as [|x l IH]; simpl; [reflexivity|].
  rewrite insert_sorted_perm, IH. reflexivity.
Qed.

(** The order of the keys, as a relation on the sorted elements. *)
Lemma not_ltb_leb (a b : string) :
  String.ltb b a = false -> String.leb a b = true.
Proof.
  unfold String.ltb, String.leb. rewrite (String.compare_antisym a b).
  destruct (String.compare b a); simpl; congruence.
Qed.

Lemma ltb_leb (a b : string) : String.ltb a b = true -> String.leb a b = true.
Proof.
  unfold String.ltb, String.leb. destruct (String.compare a b); congruence.
Qed.

Lemma leb_trans (a b c : string) :
  String.leb a b = true -> String.leb b c = true -> String.leb a c = true.
Proof.
  intros H1 H2.
  assert (T : String.le a c).
  { transitivity b; unfold String.le; [rewrite H1|rewrite H2]; exact I. }
  unfold String.le in T. destruct (String.leb a c); [reflexivity|destruct T].
Qed.

Lemma insert_sorted_sorted key x l :
  StronglySorted (fun a b => String.leb (key a) (key b) = true) l ->
  StronglySorted (fun a b => String.leb (key a) (key b) = true)
    (insert_sorted key x l).
Proof.
  induction l as [|y l IH]; intros Hl; simpl.
  - repeat constructor.
  - apply StronglySorted_inv in Hl as [Hl Hy].
    destruct (String.ltb (key y) (key x)) eqn:Hlt.
    + constructor; [exact (IH Hl)|].
      eapply Permutation_Forall; [symmetry; apply insert_sorted_perm|].
      constructor; [apply ltb_leb, Hlt | exact Hy].
    + constructor; [constructor; assumption|].
      constructor; [apply not_ltb_leb, Hlt|].
      eapply Forall_impl; [exact Hy|]. simpl. intros z Hz.
      eapply leb_trans; [apply not_ltb_leb, Hlt | exact Hz].
Qed.

Lemma sorted_sorted key l :
  StronglySorted (fun a b => String.leb (key a) (key b) = true) (sorted key l).
Proof.
  induction l as [|x l IH]; simpl; [constructor|].
  apply insert_sorted_sorted, IH.
Qed.

(** Elements with one key keep their order. *)
Lemma insert_sorted_stable key k x l :
  List.filter (fun p => String.eqb (key p) k) (insert_sorted key x l)
  = List.filter (fun p => String.eqb (key p) k) (x :: l).
Proof.
  induction l as [|y l IH]; [reflexivity|].
  simpl insert_sorted.
  destruct (String.ltb (key y) (key x)) eqn:Hlt; [|reflexivity].
  change (List.filter (fun p => String.eqb (key p) k) (y :: insert_sorted key x l))
    with (if String.eqb (key y) k
          then y :: List.filter (fun p => String.eqb (key p) k)
                      (insert_sorted key x l)
          else List.filter (fun p => String.eqb (key p) k)
                 (insert_sorted key x l)).
  rewrite IH. simpl.
  destruct (String.eqb (key y) k) eqn:Hy; [|reflexivity].
  apply String.eqb_eq in Hy. subst k.
  destruct (String.eqb (key x) (key y)) eqn:Hx; [|reflexivity].
  apply String.eqb_eq in Hx. rewrite Hx in Hlt.
  unfold String.ltb in Hlt.
  assert (String.compare (key y) (key y) = Eq) as E.
  { pose proof (String.compare_antisym (key y) (key y)) as A.
    destruct (String.compare (key y) (key y)); simpl in A; congruence. }
  rewrite E in Hlt. discriminate.
Qed.

Lemma sorted_stable key k l :
  List.filter (fun p => String.eqb (key p) k) (sorted key l)
  = List.filter (fun p => String.eqb (key p) k) l.
Proof.
  induction l as [|x l IH]; [reflexivity|].
  simpl sorted. rewrite insert_sorted_stable. simpl. rewrite IH. reflexivity.
Qed.

(** The last component of a joined path is the name that was joined. *)
Lemma basename_plain (n : string) : has_sep n = false -> basename n = n.
Proof.
  destruct n as [|c r]; simpl; [reflexivity|].
  intros H. apply orb_false_elim in H as [Hc Hr]. rewrite Hc, Hr. reflexivity.
Qed.

Lemma has_sep_app (a n : string) : has_sep (a +:+ String "/" n) = true.
Proof.
  induction a as [|c a IH]; simpl; [reflexivity|].
  rewrite IH. apply orb_true_r.
Qed.

Lemma basename_after_sep (a n : string) :
  has_sep n = false -> basename (a +:+ String "/" n) = n.
Proof.
  intros Hn. induction a as [|c a IH]; simpl.
  - apply basename_plain, Hn.
  - rewrite has_sep_app, IH. destruct (Ascii.eqb c "/"); reflexivity.
Qed.

Lemma endswith_sep_split (a : string) :
  endswith "/" a = true -> exists a', a = a' +:+ "/".
Proof.
  induction a as [|c a IH]; [discriminate|].
  cbn [endswith]. intros H. apply orb_prop in H as [H|H].
  - apply String.eqb_eq in H. exists "". exact H.
  - destruct (IH H) as (a' & ->). exists (String c a'). reflexivity.
Qed.

Lemma basename_join (path n : string) :
  has_sep n = false -> basename (path_join path n) = n.
Proof.
  intros Hn. unfold path_join.
  assert (startswith_sep n = false) as ->.
  { destruct n as [|c r]; simpl in *; [reflexivity|].
    apply orb_false_elim in Hn as [Hc _]. exact Hc. }
  destruct path as [|c path]; [apply basename_plain, Hn|].
  cbn [truthy negb orb].
  destruct (endswith "/" (String c path)) eqn:He.
  - destruct (endswith_sep_split _ He) as (a' & ->).
    rewrite append_assoc. apply basename_after_sep, Hn.
  - apply (basename_after_sep (String c path) n Hn).
Qed.

(** What [_list_pdfs] returns has the size of the kept files and holds
    the path of each of them. *)
Lemma list_pdfs_keeps_exactly_the_pdf_files_aux (lower : string -> string)
    (listing : list dir_entry)
    (path : string) :
  length (_list_pdfs lower listing path) = length (List.filter (is_pdf lower) listing) /\
  (forall e, In e listing -> is_pdf lower e = true ->
             _list_pdfs lower listing path <> []).
Proof.
  assert (HP : Permutation (_list_pdfs lower listing path)
                 (map (fun e => path_join path (name e))
                      (List.filter (is_pdf lower) listing))).
  { rewrite list_pdfs_unfold. apply sorted_perm. }
  split.
  - rewrite (Permutation_length HP). apply length_map.
  - intros e He Hpdf Hnil. rewrite Hnil in HP.
    apply Permutation_nil in HP.
    assert (In e (List.filter (is_pdf lower) listing)) as Hin
      by (apply filter_In; auto).
    destruct (List.filter (is_pdf lower) listing); [destruct Hin|discriminate].
Qed.

(** X1. [_list_pdfs] returns the joined paths of exactly the regular
    files of the listing whose name ends in ".pdf" in any letter case:
    each of them once, none lost, nothing else. *)
Theorem list_pdfs_keeps_exactly_the_pdf_files (lower : string -> string)
    (listing : list dir_entry)
    (path : string) :
  Permutation (_list_pdfs lower listing path)
    (map (fun e => path_join path (name e)) (List.filter (is_pdf lower) listing)) /\
  length (_list_pdfs lower listing path)
  = length (List.filter (is_pdf lower) listing) /\
  (forall p,
      In p (_list_pdfs lower listing path) <->
      exists e, In e listing /\ is_file e = true /\
                endswith ".pdf" (lower (name e)) = true /\
                p = path_join path (name e)).
Proof.
  assert (HP : Permutation (_list_pdfs lower listing path)
                 (map (fun e => path_join path (name e))
                      (List.filter (is_pdf lower) listing))).
  { rewrite list_pdfs_unfold. apply sorted_perm. }
  split; [exact HP|]. split.
  - rewrite (Permutation_length HP). apply length_map.
  - intros p. split.
    + intros Hp. apply (Permutation_in _ HP) in Hp.
      apply in_map_iff in Hp as (e & <- & He).
      apply filter_In in He as (He & Hpdf). unfold is_pdf in Hpdf.
      apply andb_prop in Hpdf as [Hf Hs]. exists e. auto.
    + intros (e & He & Hf & Hs & ->).
      apply (Permutation_in _ (Permutation_sym HP)).
      apply in_map_iff. exists e. split; [reflexivity|].
      apply filter_In. split; [exact He|]. unfold is_pdf.
      rewrite Hf, Hs. reflexivity.
Qed.

(** X2. The paths [_list_pdfs] returns are in non-decreasing order of
    their lower-cased last component: every path comes before all the
    paths with a greater key. *)
Theorem list_pdfs_sorted_by_lowercase_name (lower : string -> string)
    (listing : list dir_entry)
    (path : string) :
  StronglySorted
    (fun a b => String.leb (lower (basename a)) (lower (basename b)) = true)
    (_list_pdfs lower listing path).
Proof. rewrite list_pdfs_unfold. apply (sorted_sorted (sort_key lower)). Qed.

(** X3. The sort of line 45 is stable: the files that share a sort key
    (names that differ in letter case only) come out in the order of the
    listing. *)
Theorem list_pdfs_ties_keep_listing_order (lower : string -> string)
    (listing : list dir_entry)
    (path k : string) :
  List.filter (fun p => String.eqb (sort_key lower p) k) (_list_pdfs lower listing path)
  = List.filter (fun p => String.eqb (sort_key lower p) k)
      (map (fun e => path_join path (name e)) (List.filter (is_pdf lower) listing)).
Proof. rewrite list_pdfs_unfold. apply (sorted_stable (sort_key lower)). Qed.

(** X4. For a name without a separator, as [os.listdir] gives them, the
    sort key of the joined path is the lower-cased name, whatever the
    folder is: the folder's own path plays no part in the order. *)
Theorem sort_key_is_lowercase_name (lower : string -> string)
    (path n : string) :
  has_sep n = false ->
  basename (path_join path n) = n /\
  sort_key lower (path_join path n) = lower n.
Proof.
  intros Hn. unfold sort_key. rewrite (basename_join path n Hn).
  split; reflexivity.
Qed.

Lemma sort_key_is_lowercase_name_witness :
  has_sep "02_Memory.PDF" = false /\
  (basename (path_join "/app/psychology_book" "02_Memory.PDF")
   = "02_Memory.PDF" /\
   sort_key ascii_lower (path_join "/app/psychology_book" "02_Memory.PDF")
   = ascii_lower "02_Memory.PDF").
Proof.
  assert (H : has_sep "02_Memory.PDF" = false) by reflexivity.
  split; [exact H|].
  exact (sort_key_is_lowercase_name ascii_lower "/app/psychology_book"
           "02_Memory.PDF" H).
Defined.

(** X5. The start of the script has four outcomes.  Without the folder
    it shows an error and stops.  When listing the folder raises, the
    exception leaves the script and nothing was shown.  With a folder
    that holds no PDF file it shows a warning and stops.  With at least
    one PDF file it shows nothing and goes on with a non-empty list of
    chapters, the first of which is the chapter selected by default. *)
Theorem locate_chapters_outcomes (lower : string -> string)
    (BOOK_DIR : string) (folder : option (res (list dir_entry))) :
  match folder with
  | None =>
      locate_chapters lower BOOK_DIR folder
      = ([error "Folder `psychology_book` not found next to this app. Create it and add PDF chapters."],
         Stop)
  | Some (Raise e) => locate_chapters lower BOOK_DIR folder = ([], Uncaught e)
  | Some (Ok listing) =>
      if existsb (is_pdf lower) listing then
        exists first rest,
          locate_chapters lower BOOK_DIR folder
          = ([], Continue (first :: rest)) /\
          _list_pdfs lower listing BOOK_DIR = first :: rest /\
          selectbox_default (first :: rest) = Ok first
      else
        locate_chapters lower BOOK_DIR folder
        = ([warning "No PDFs found in `psychology_book`. Add chapter PDFs and refresh."],
           Stop)
  end.
Proof.
  destruct folder as [[listing|e]|]; [|reflexivity|reflexivity].
  destruct (list_pdfs_keeps_exactly_the_pdf_files_aux lower listing BOOK_DIR)
    as [Hlen Hin].
  unfold locate_chapters.
  destruct (existsb (is_pdf lower) listing) eqn:Hex.
  - apply existsb_exists in Hex as (e & He & Hpdf).
    destruct (_list_pdfs lower listing BOOK_DIR) as [|first rest] eqn:Hl.
    + exfalso. apply (Hin e He Hpdf). reflexivity.
    + exists first, rest. repeat split.
  - destruct (_list_pdfs lower listing BOOK_DIR) as [|first rest] eqn:Hl.
    + reflexivity.
    + exfalso. simpl in Hlen.
      assert (List.filter (is_pdf lower) listing = []) as E.
      { clear -Hex. induction listing as [|e l IH]; [reflexivity|].
        simpl in *. apply orb_false_elim in Hex as [-> Hl]. auto. }
      rewrite E in Hlen. discriminate.
Qed.

End ListingProps.

(** ** 7.8 The page selector and the window outside its options *)

Module WindowProps.
Import Context ContextProps Pages.

Lemma index_negative {A} (l : list A) (i : Z) :
  - Z.of_nat (length l) <= i < 0 ->
  exists x, l !! Z.to_nat (i + Z.of_nat (length l)) = Some x
            /\ index l i = Ok x.
Proof.
  intros Hi. unfold index.
  destruct (i <? 0) eqn:Hneg; [|apply Z.ltb_ge in Hneg; lia].
  destruct (i + Z.of_nat (length l) <? 0) eqn:H1;
    [apply Z.ltb_lt in H1; lia|].
  destruct (Z.of_nat (length l) <=? i + Z.of_nat (length l)) eqn:H2;
    [apply Z.leb_le in H2; lia|].
  simpl.
  destruct (l !! Z.to_nat (i + Z.of_nat (length l))) as [x|] eqn:Hx.
  - exists x. split; reflexivity.
  - apply lookup_ge_None in Hx. lia.
Qed.



Lemma page_options_spec (num_pages i : Z) :
  In i (page_options num_pages) <-> 1 <= i <= num_pages.
Proof.
  unfold page_options, range. rewrite <- list_elem_of_In, elem_of_seqZ. lia.
Qed.

(** For an index below 1 that still reaches a page from the end. *)
Lemma context_text_wraps (pages : list string) (i : Z) :
  1 - Z.of_nat (length pages) <= i <= 0 ->
  exists cur nxt,
    pages !! Z.to_nat (i - 1 + Z.of_nat (length pages)) = Some cur /\
    pages !! Z.to_nat (if i =? 0 then 0 else i + Z.of_nat (length pages))
    = Some nxt /\
    context_text pages i
    = Ok (entry "Current" i cur +:+ SEP +:+ entry "Next" (i + 1) nxt).
Proof.
  intros Hi.
  destruct (index_negative pages (i - 1) ltac:(lia)) as (cur & Hcur & Icur).
  assert (exists nxt,
             pages !! Z.to_nat (if i =? 0 then 0
                                else i + Z.of_nat (length pages)) = Some nxt
             /\ index pages i = Ok nxt) as (nxt & Hnxt & Inxt).
  { destruct (i =? 0) eqn:E.
    - apply Z.eqb_eq in E. subst i. apply (index_in_range pages 0). lia.
    - apply Z.eqb_neq in E. apply index_negative. lia. }
  exists cur, nxt. split; [exact Hcur|]. split; [exact Hnxt|].
  unfold context_text, joined_entries, context_texts.
  destruct (1 <? i) eqn:H1; [apply Z.ltb_lt in H1; lia|].
  destruct (i <? Z.of_nat (length pages)) eqn:H2;
    [|apply Z.ltb_ge in H2; lia].
  rewrite bind_Ok, Icur, bind_Ok, Inxt, !bind_Ok. reflexivity.
Qed.


Lemma context_text_valid (pages : list string) (i : Z) :
  1 <= i <= Z.of_nat (length pages) ->
  exists text, context_text pages i = Ok text.
Proof.
  intros Hi.
  destruct (context_texts_valid pages i Hi) as (cur & prev & next & _ & H & _).
  unfold context_text, joined_entries. rewrite H, !bind_Ok. eauto.
Qed.

(** X6. The page selector offers exactly the numbers 1 .. N, starts on
    page 1, and the context window is built without an exception for
    every number it offers. *)
Theorem page_selector_offers_valid_pages (pages : list string) (i : Z) :
  (In i (page_options (Z.of_nat (length pages)))
   <-> 1 <= i <= Z.of_nat (length pages)) /\
  (In i (page_options (Z.of_nat (length pages))) ->
   exists text, context_text pages i = Ok text) /\
  (pages <> [] ->
   selectbox_default (page_options (Z.of_nat (length pages))) = Ok 1).
Proof.
  split; [apply page_options_spec|]. split.
  - intros Hi. apply page_options_spec in Hi. apply context_text_valid, Hi.
  - intros Hne. unfold selectbox_default.
    assert (0 < Z.of_nat (length pages)) as Hpos
      by (destruct pages; [congruence|simpl; lia]).
    destruct (index_in_range (page_options (Z.of_nat (length pages))) 0)
      as (x & Hx & ->).
    + unfold page_options, range. rewrite length_seqZ. lia.
    + unfold page_options, range in Hx. simpl in Hx.
      rewrite lookup_seqZ_lt in Hx by lia. injection Hx as <-. reflexivity.
Qed.

Lemma page_selector_offers_valid_pages_witness :
  let pages := ["Intro text."; "Core concept text."; "Summary text."] in
  In 3 (page_options (Z.of_nat (length pages))) /\
  exists text, context_text pages 3 = Ok text.
Proof.
  intros pages.
  assert (H : In 3 (page_options (Z.of_nat (length pages))))
    by (vm_compute; auto).
  split; [exact H|].
  exact (proj1 (proj2 (page_selector_offers_valid_pages pages 3)) H).
Defined.



(** An index that does not fit a machine word. *)
Example window_huge_index :
  context_text ["a"; "b"] (2 ^ 64)
  = Raise (IndexError "cannot fit 'int' into an index-sized integer").
Proof. reflexivity. Qed.

(** X8. For an index from 1 - N to 0 Python's negative indexing reaches
    the pages from the end: the window has no Prev entry, its entry
    labelled "Current: Page i" holds page N + i, and its entry labelled
    "Next: Page i+1" holds page 1 when i = 0 and page N + i + 1
    otherwise. *)
Theorem context_text_below_one_wraps (pages : list string) (i : Z) :
  1 - Z.of_nat (length pages) <= i <= 0 ->
  exists cur nxt,
    page pages (Z.of_nat (length pages) + i) = Some cur /\
    page pages (if i =? 0 then 1 else Z.of_nat (length pages) + i + 1)
    = Some nxt /\
    context_text pages i
    = Ok (join SEP [entry "Current" i cur; entry "Next" (i + 1) nxt]).
Proof.
  intros Hi.
  destruct (context_text_wraps pages i Hi) as (cur & nxt & Hc & Hn & Ht).
  exists cur, nxt. split; [|split].
  - unfold page.
    destruct (Z.of_nat (length pages) + i <? 1) eqn:E;
      [apply Z.ltb_lt in E; lia|].
    rewrite <- Hc. f_equal. lia.
  - unfold page. destruct (i =? 0) eqn:E0.
    + simpl. exact Hn.
    + apply Z.eqb_neq in E0.
      destruct (Z.of_nat (length pages) + i + 1 <? 1) eqn:E;
        [apply Z.ltb_lt in E; lia|].
      rewrite <- Hn. f_equal. lia.
  - rewrite Ht. reflexivity.
Qed.

Lemma context_text_below_one_wraps_witness :
  let pages := ["first"; "middle"; "last"] in
  1 - Z.of_nat (length pages) <= 0 <= 0 /\
  exists cur nxt,
    page pages (Z.of_nat (length pages) + 0) = Some cur /\
    page pages (if 0 =? 0 then 1 else Z.of_nat (length pages) + 0 + 1)
    = Some nxt /\
    context_text pages 0
    = Ok (join SEP [entry "Current" 0 cur; entry "Next" (0 + 1) nxt]).
Proof.
  intros pages.
  assert (H : 1 - Z.of_nat (length pages) <= 0 <= 0) by (simpl; lia).
  split; [exact H|].
  exact (context_text_below_one_wraps pages 0 H).
Defined.

End WindowProps.

(** ** 7.9 The cache over a session, and the outcomes of reading *)

Module SessionProps.
Import Extract Script Session StripProps ExtractProps Context WindowProps.

Lemma cache_data_keeps {V} (f : string -> Z -> res V) (c : cache V)
    (file_path : string) (mtime : Z) (k : string * Z) (v : V) :
  store c !! k = Some v ->
  store (snd (cache_data f c file_path mtime)) !! k = Some v.
Proof.
  intros Hk. unfold cache_data.
  destruct (store c !! (file_path, mtime)) as [w|] eqn:Hc; [exact Hk|].
  destruct (f file_path mtime); simpl; [|exact Hk].
  rewrite lookup_insert_ne; [exact Hk|]. congruence.
Qed.

Lemma cache_data_ran_grows {V} (f : string -> Z -> res V) (c : cache V)
    (file_path : string) (mtime : Z) :
  exists more, ran (snd (cache_data f c file_path mtime)) = ran c ++ more.
Proof.
  unfold cache_data.
  destruct (store c !! (file_path, mtime)) as [w|].
  - exists []. simpl. rewrite app_nil_r. reflexivity.
  - destruct (f file_path mtime); simpl; eauto.
Qed.

(** X9. An entry of the cache is never evicted or overwritten: whatever
    chapters are read afterwards, under whatever modification times and
    whatever the files hold by then, a pair that was stored keeps its
    page texts, and reading it again returns them without running the
    extraction. *)
Theorem stored_pages_survive_the_session (pdfplumber : pdf_library)
    (reruns : list (filesystem * string * Z)) (c : cache (list string))
    (file_path : string) (mtime : Z) (pages : list string) :
  store c !! (file_path, mtime) = Some pages ->
  store (replay pdfplumber reruns c) !! (file_path, mtime) = Some pages /\
  forall fs,
    cached_read_pdf_pages pdfplumber fs (replay pdfplumber reruns c)
      file_path mtime
    = (Ok pages, replay pdfplumber reruns c).
Proof.
  intros Hk.
  assert (H : store (replay pdfplumber reruns c) !! (file_path, mtime)
              = Some pages).
  { revert c Hk. induction reruns as [|[[fs p] m] rest IH]; intros c Hk.
    - exact Hk.
    - simpl. apply IH. apply cache_data_keeps, Hk. }
  split; [exact H|]. intros fs. apply cache_data_hit, H.
Qed.

Lemma stored_pages_survive_the_session_witness :
  let v1 := {| data := Ok (list_byte_of_string "%PDF three"); modified := 100 |} in
  let v2 := {| data := Ok (list_byte_of_string "not a pdf"); modified := 200 |} in
  let fs1 : filesystem := {[ "ch1.pdf" := v1 ]} in
  let fs2 : filesystem := {[ "ch1.pdf" := v2 ]} in
  let pages := ["Intro text."; ""; "Summary text."] in
  let c := snd (cached_read_pdf_pages sample_pdfplumber fs1 empty_cache
                  "ch1.pdf" 100) in
  let reruns := [(fs2, "ch1.pdf", 200); (fs2, "ch2.pdf", 300)] in
  store c !! ("ch1.pdf", 100) = Some pages /\
  (store (replay sample_pdfplumber reruns c) !! ("ch1.pdf", 100) = Some pages /\
   forall fs,
     cached_read_pdf_pages sample_pdfplumber fs
       (replay sample_pdfplumber reruns c) "ch1.pdf" 100
     = (Ok pages, replay sample_pdfplumber reruns c)).
Proof.
  intros v1 v2 fs1 fs2 pages c reruns.
  assert (H : store c !! ("ch1.pdf", 100) = Some pages) by reflexivity.
  split; [exact H|].
  exact (stored_pages_survive_the_session sample_pdfplumber reruns c
           "ch1.pdf" 100 pages H).
Defined.

(** X10. A failed extraction is not cached.  When the body raises for a
    pair that is not stored, the exception is passed on, the store stays
    as it was, and the next query for the same pair runs the body again
    and fails again: over the two queries the extraction ran twice. *)
Theorem failed_extraction_is_not_cached (pdfplumber : pdf_library)
    (fs : filesystem) (c : cache (list string))
    (file_path : string) (mtime : Z) (e : exn) :
  store c !! (file_path, mtime) = None ->
  read_pdf_pages pdfplumber fs file_path mtime = Raise e ->
  let first := cached_read_pdf_pages pdfplumber fs c file_path mtime in
  let second :=
    cached_read_pdf_pages pdfplumber fs (snd first) file_path mtime in
  fst first = Raise e /\ fst second = Raise e /\
  store (snd second) = store c /\
  ran (snd second) = ran c ++ [(file_path, mtime); (file_path, mtime)].
Proof.
  intros Hc He.
  assert (Hmiss : forall c0 : cache (list string),
             store c0 !! (file_path, mtime) = None ->
             cached_read_pdf_pages pdfplumber fs c0 file_path mtime
             = (Raise e, {| store := store c0;
                            ran := ran c0 ++ [(file_path, mtime)] |})).
  { intros c0 H0. unfold cached_read_pdf_pages, cache_data.
    rewrite H0, He. reflexivity. }
  intros first second. subst second first.
  rewrite (Hmiss c Hc). cbn [snd fst].
  rewrite Hmiss by exact Hc. cbn [snd fst store ran].
  rewrite <- app_assoc. repeat split.
Qed.

Lemma failed_extraction_is_not_cached_witness :
  let bad := {| data := Ok (list_byte_of_string "not a pdf"); modified := 7 |} in
  let fs : filesystem := {[ "bad.pdf" := bad ]} in
  let e := LibraryError "PDFSyntaxError"
             "No /Root object! - Is this really a PDF?" in
  let first :=
    cached_read_pdf_pages sample_pdfplumber fs empty_cache "bad.pdf" 7 in
  let second :=
    cached_read_pdf_pages sample_pdfplumber fs (snd first) "bad.pdf" 7 in
  fst first = Raise e /\ fst second = Raise e /\
  store (snd second) = store (@empty_cache (list string)) /\
  ran (snd second)
  = ran (@empty_cache (list string)) ++ [("bad.pdf", 7); ("bad.pdf", 7)].
Proof.
  intros bad fs e.
  exact (failed_extraction_is_not_cached sample_pdfplumber fs empty_cache
           "bad.pdf" 7 e eq_refl eq_refl).
Defined.



(** X12. For a valid document, a page gives the empty string exactly
    when it has no text or its text is white space only; such a page is
    not told apart from a page without text. *)
Theorem blank_pages_give_empty_text (pdfplumber : pdf_library)
    (fs : filesystem) (file_path : string) (mtime : Z)
    (f : file) (bytes : list Byte.byte) (pdf : list pdf_page)
    (txts : list (option string)) :
  fs !! file_path = Some f ->
  data f = Ok bytes ->
  pdfplumber bytes = Ok pdf ->
  extracts pdf txts ->
  exists texts,
    read_pdf_pages pdfplumber fs file_path mtime = Ok texts /\
    forall (k : nat) pg got, pdf !! k = Some pg -> extract_text pg = Ok got ->
      (texts !! k = Some "" <->
       got = None \/ exists txt, got = Some txt /\ all_space txt = true).
Proof.
  intros Hf Hd Hpdf Hx.
  exists (map (fun txt => strip (text_or_empty txt)) txts).
  split; [eapply read_pdf_pages_valid; eassumption|].
  intros k pg got Hpg Hgot.
  assert (txts !! k = Some got) as Hk.
  { assert (map extract_text pdf !! k = Some (Ok got)) as E
      by (rewrite list_lookup_fmap, Hpg; simpl; f_equal; exact Hgot).
    unfold extracts in Hx. rewrite Hx, list_lookup_fmap in E.
    destruct (txts !! k) as [t|]; [|discriminate].
    simpl in E. injection E as <-. reflexivity. }
  rewrite list_lookup_fmap, Hk. simpl.
  unfold text_or_empty. destruct got as [txt|].
  - assert (or_empty txt = txt) as -> by (destruct txt; reflexivity).
    split.
    + intros [= H]. right. exists txt. split; [reflexivity|].
      apply strip_empty_iff, H.
    + intros [H|(t & [= <-] & H)]; [discriminate|].
      rewrite (strip_all_space txt H). reflexivity.
  - split; [auto|reflexivity].
Qed.

Lemma blank_pages_give_empty_text_witness :
  let f := {| data := Ok (list_byte_of_string "%PDF spaces");
              modified := 1700000000 |} in
  let fs : filesystem := {[ "ch2.pdf" := f ]} in
  let pdf := [ {| extract_text := Ok (Some " Wide　") |};
               {| extract_text := Ok (Some "　 ") |} ] in
  let txts := [ Some " Wide　"; Some "　 " ] in
  exists texts,
    read_pdf_pages sample_pdfplumber fs "ch2.pdf" 1700000000 = Ok texts /\
    forall (k : nat) pg got, pdf !! k = Some pg -> extract_text pg = Ok got ->
      (texts !! k = Some "" <->
       got = None \/ exists txt, got = Some txt /\ all_space txt = true).
Proof.
  intros f fs pdf txts.
  assert (Hf : fs !! "ch2.pdf" = Some f) by reflexivity.
  assert (Hx : extracts pdf txts) by reflexivity.
  exact (blank_pages_give_empty_text sample_pdfplumber fs "ch2.pdf"
           1700000000 f (list_byte_of_string "%PDF spaces") pdf txts
           Hf eq_refl eq_refl Hx).
Defined.

(** X13. Reading the chosen chapter ends in one of three ways.  It goes
    on, having shown nothing, with a list of pages that is not empty and
    is stored in the cache under the file's modification time, so that
    the window of page 1, the default selection, can be built.  It
    stops, having shown the one error about a document without pages.
    Or an exception leaves it, and it has shown nothing. *)
Theorem load_chapter_outcomes (pdfplumber : pdf_library) (fs : filesystem)
    (c : cache (list string)) (chapter_path : string) :
  match load_chapter pdfplumber fs c chapter_path with
  | (shown, Continue pages, c') =>
      shown = [] /\ pages <> [] /\
      (exists f, fs !! chapter_path = Some f /\
                 store c' !! (chapter_path, modified f) = Some pages) /\
      (exists text, context_text pages 1 = Ok text)
  | (shown, Stop, _) =>
      shown = [error "Couldn't read any pages from this PDF."]
  | (shown, Uncaught _, _) => shown = []
  end.
Proof.
  unfold load_chapter, getmtime.
  destruct (fs !! chapter_path) as [f|] eqn:Hf; [|reflexivity].
  destruct (cached_read_pdf_pages pdfplumber fs c chapter_path (modified f))
    as [[pages|e] c'] eqn:Hread; [|reflexivity].
  destruct (Z.of_nat (length pages) =? 0) eqn:Hn; [reflexivity|].
  apply Z.eqb_neq in Hn.
  split; [reflexivity|].
  split; [intros ->; apply Hn; reflexivity|].
  split.
  - exists f. split; [reflexivity|].
    apply (cache_data_stores _ _ _ _ _ _ Hread).
  - apply context_text_valid. lia.
Qed.

End SessionProps.

(** ** 7.10 Asking, from the selector to the answer *)

Module AskProps.
Import Templates LLM StripProps Pages Context.

(** The one way for [call_llm] to raise: making the client. *)
Lemma call_llm_raises (OpenAI : option sdk) (api_key : option string)
    (model context_text question : string) (e : exn) :
  fst (call_llm OpenAI api_key model context_text question) = Raise e <->
  exists openai,
    OpenAI = Some openai /\ no_key api_key = false /\
    new_client openai (default "" api_key) = Raise e.
Proof.
  unfold call_llm. destruct OpenAI as [openai|].
  - destruct (no_key api_key) eqn:Hkey.
    + split; [discriminate|]. intros (o & _ & H & _). discriminate.
    + destruct (new_client openai (default "" api_key)) as [cl|e'] eqn:Hc.
      * simpl fst. split.
        -- match goal with |- context [try_except ?b _] => destruct b end;
             discriminate.
        -- intros (o & [= <-] & _ & H). congruence.
      * simpl. split.
        -- intros [= <-]. exists openai. auto.
        -- intros (o & [= <-] & _ & H). congruence.
  - split; [discriminate|]. intros (o & H & _). discriminate.
Qed.

Lemma call_llm_sent (OpenAI : option sdk) (api_key : option string)
    (model context_text question : string) :
  snd (call_llm OpenAI api_key model context_text question)
  = match OpenAI with
    | Some openai =>
        if no_key api_key then []
        else match new_client openai (default "" api_key) with
             | Ok _ =>
                 [ {| LLM.model := model;
                      messages := compose context_text question;
                      temperature := (3 # 10)%Q |} ]
             | Raise _ => []
             end
    | None => []
    end.
Proof.
  unfold call_llm. destruct OpenAI as [openai|]; [|reflexivity].
  destruct (no_key api_key); [reflexivity|].
  destruct (new_client openai (default "" api_key)); reflexivity.
Qed.

(** X14. When the client is made and the endpoint answers, [call_llm]
    returns the content of the first choice, stripped, and ignores the
    other choices; it has called [create] once, with the model it was
    given and the temperature 0.3. *)
Theorem call_llm_returns_first_choice (openai : sdk) (cl : client)
    (api_key : option string) (model context_text question : string)
    (c : choice) (others : list choice) (txt : string) :
  no_key api_key = false ->
  new_client openai (default "" api_key) = Ok cl ->
  create cl
    {| LLM.model := model; messages := compose context_text question;
       temperature := (3 # 10)%Q |}
  = Ok {| choices := c :: others |} ->
  message_content c = Some txt ->
  call_llm (Some openai) api_key model context_text question
  = (Ok (strip txt),
     [ {| LLM.model := model; messages := compose context_text question;
          temperature := (3 # 10)%Q |} ]).
Proof.
  intros Hkey Hcl Hresp Hc. unfold call_llm.
  rewrite Hkey, Hcl, Hresp, bind_Ok.
  unfold first_content. cbn [choices].
  destruct (index_in_range (c :: others) 0) as (x & Hx & ->);
    [simpl; lia|].
  injection Hx as <-. rewrite bind_Ok, Hc. reflexivity.
Qed.

(** An answer wrapped in no-break spaces (U+00A0). *)
Lemma call_llm_returns_first_choice_witness :
  let cl := {| create := fun _ =>
                 Ok {| choices :=
                         [ {| message_content := Some " answer " |};
                           {| message_content := Some "second" |} ] |} |} in
  call_llm (Some {| new_client := fun _ => Ok cl |}) (Some "sk-test")
    "gpt-4o-mini" "ctx" "Why?"
  = (Ok (strip " answer "),
     [ {| LLM.model := "gpt-4o-mini"; messages := compose "ctx" "Why?";
          temperature := (3 # 10)%Q |} ]).
Proof.
  intros cl.
  apply (call_llm_returns_first_choice {| new_client := fun _ => Ok cl |} cl
           (Some "sk-test") "gpt-4o-mini" "ctx" "Why?"
           {| message_content := Some " answer " |}
           [ {| message_content := Some "second" |} ]);
    reflexivity.
Defined.

Example nbsp_answer_is_stripped :
  strip " answer " = "answer".
Proof. reflexivity. Qed.

(** X15. The handler of the button calls [create] at most once: a failed
    call is not made again.  Without a press it shows nothing and calls
    nothing.  [create] is called only when the button was pressed, the
    question is not blank, the SDK was imported and a key is set.  The
    handler never stops the script, and the only exception that can
    leave it is the one raised while the client is made (line 131);
    then [create] was not called. *)
Theorem on_ask_is_safe (OpenAI : option sdk) (api_key : option string)
    (model_name context_text question : string) (ask : bool) :
  exists shown ended sent,
    on_ask OpenAI api_key model_name context_text question ask
    = (shown, ended, sent) /\
    (length sent <= 1)%nat /\
    (ask = false -> shown = [] /\ ended = Continue tt /\ sent = []) /\
    (sent <> [] ->
     ask = true /\ all_space question = false /\
     OpenAI <> None /\ no_key api_key = false) /\
    ended <> Stop /\
    (forall e, ended = Uncaught e ->
       sent = [] /\ ask = true /\ all_space question = false /\
       exists openai,
         OpenAI = Some openai /\ no_key api_key = false /\
         new_client openai (default "" api_key) = Raise e).
Proof.
  unfold on_ask. destruct ask.
  - destruct (truthy (strip question)) eqn:Hq; simpl.
    + assert (all_space question = false) as Hns.
      { destruct (all_space question) eqn:E; [|reflexivity].
        rewrite (strip_all_space question E) in Hq. discriminate. }
      pose proof (call_llm_raises OpenAI api_key model_name context_text
                    question) as Hr.
      pose proof (call_llm_sent OpenAI api_key model_name context_text
                    question) as Hs.
      destruct (call_llm OpenAI api_key model_name context_text question)
        as [[answer|e] sent]; simpl in Hr, Hs.
      * eexists _, _, sent. split; [reflexivity|].
        rewrite Hs.
        destruct OpenAI as [o|];
          [destruct (no_key api_key);
           [|destruct (new_client o (default "" api_key))]|];
          simpl; repeat split; try lia; try congruence.
      * destruct (proj1 (Hr e) eq_refl) as (o & -> & Hk & Hc).
        rewrite Hk, Hc in Hs. subst sent.
        eexists _, _, []. split; [reflexivity|].
        simpl. repeat split; try lia; try congruence.
        exists o. injection H as <-. auto.
    + eexists _, _, []. split; [reflexivity|].
      simpl. repeat split; try lia; congruence.
  - eexists [], _, []. split; [reflexivity|].
    simpl. repeat split; try lia; congruence.
Qed.

(** X16. Every option of the help selector resolves to a question without
    a KeyError.  For a template the question is the catalog's text for
    that label, which is never blank: pressing the button with a
    template selected never gives the warning for a blank question, the
    handler goes on to [call_llm] and shows what it returns as the
    answer. *)
Theorem every_mode_resolves (mode typed : string) :
  In mode mode_options ->
  exists q shown,
    question mode typed = Ok (q, shown) /\
    (mode = "Custom question" -> q = typed) /\
    (mode <> "Custom question" ->
     In (mode, q) QUESTION_TEMPLATES /\ all_space q = false /\
     forall OpenAI api_key model_name context_text,
       on_ask OpenAI api_key model_name context_text q true
       = match call_llm OpenAI api_key model_name context_text q with
         | (Ok answer, sent) =>
             ([spinner "Thinking..."; markdown "**Answer:**"; write answer],
              Continue tt, sent)
         | (Raise e, sent) => ([spinner "Thinking..."], Uncaught e, sent)
         end).
Proof.
  intros Hmode.
  assert (Hask : forall q, truthy (strip q) = true ->
            forall OpenAI api_key model_name context_text,
              on_ask OpenAI api_key model_name context_text q true
              = match call_llm OpenAI api_key model_name context_text q with
                | (Ok answer, sent) =>
                    ([spinner "Thinking..."; markdown "**Answer:**";
                      write answer], Continue tt, sent)
                | (Raise e, sent) => ([spinner "Thinking..."], Uncaught e, sent)
                end).
  { intros q Hq OpenAI api_key model_name context_text.
    unfold on_ask. rewrite Hq. reflexivity. }
  simpl in Hmode.
  destruct Hmode as [<-|Hmode].
  { eexists _, _. split; [reflexivity|]. split; [reflexivity|]. congruence. }
  repeat (destruct Hmode as [<-|Hmode];
          [eexists _, _; split; [reflexivity|];
           split; [discriminate|]; intros _;
           split; [simpl; tauto|];
           split; [reflexivity|]; apply Hask; reflexivity|]).
  destruct Hmode.
Qed.

Lemma every_mode_resolves_witness :
  In "Make quiz questions" mode_options /\
  exists q shown,
    question "Make quiz questions" "typed earlier" = Ok (q, shown) /\
    ("Make quiz questions" = "Custom question" -> q = "typed earlier") /\
    ("Make quiz questions" <> "Custom question" ->
     In ("Make quiz questions", q) QUESTION_TEMPLATES /\
     all_space q = false /\
     forall OpenAI api_key model_name context_text,
       on_ask OpenAI api_key model_name context_text q true
       = match call_llm OpenAI api_key model_name context_text q with
         | (Ok answer, sent) =>
             ([spinner "Thinking..."; markdown "**Answer:**"; write answer],
              Continue tt, sent)
         | (Raise e, sent) => ([spinner "Thinking..."], Uncaught e, sent)
         end).
Proof.
  assert (H : In "Make quiz questions" mode_options) by (simpl; tauto).
  split; [exact H|].
  exact (every_mode_resolves "Make quiz questions" "typed earlier" H).
Defined.

(** X17. The user message holds the whole context and the whole question
    between fixed texts: nothing is cut, and the message is 259 bytes
    longer than the two together, however long they are. *)
Theorem user_message_embeds_everything (context_text question : string) :
  user context_text question
  = ("Context (selected page with ±1 neighbors):" +:+ nl +:+ "---" +:+ nl)
    +:+ context_text
    +:+ (nl +:+ "---" +:+ nl +:+ nl +:+ "Student request: ")
    +:+ question
    +:+ (nl +:+ nl +:+ "Rules:" +:+ nl
         +:+ "1) Use ONLY the text above." +:+ nl
         +:+ "2) Keep it simple for a school student." +:+ nl
         +:+ "3) Use bullets or short steps when helpful." +:+ nl
         +:+ "4) If info is missing, say you can't find it in the provided pages.")
  /\
  String.length (user context_text question)
  = (String.length context_text + String.length question + 259)%nat.
Proof.
  assert (E : or_empty context_text = context_text)
    by (destruct context_text; reflexivity).
  assert (H : user context_text question
    = ("Context (selected page with ±1 neighbors):" +:+ nl +:+ "---" +:+ nl)
      +:+ context_text
      +:+ (nl +:+ "---" +:+ nl +:+ nl +:+ "Student request: ")
      +:+ question
      +:+ (nl +:+ nl +:+ "Rules:" +:+ nl
           +:+ "1) Use ONLY the text above." +:+ nl
           +:+ "2) Keep it simple for a school student." +:+ nl
           +:+ "3) Use bullets or short steps when helpful." +:+ nl
           +:+ "4) If info is missing, say you can't find it in the provided pages.")).
  { unfold user. rewrite E. reflexivity. }
  split; [exact H|].
  rewrite H, !append_length.
  repeat match goal with
         | |- context [String.length ?t] =>
             tryif is_var t then fail
             else (let n := eval vm_compute in (String.length t) in
                   change (String.length t) with n)
         end.
  lia.
Qed.

End AskProps.

(** ** 7.11 What stripping removes, and the preview *)

Module PreviewProps.
Import Extract StripProps ExtractProps Pages Context ContextProps.

(** X18. For a valid document, extraction changes a page's text only at
    its ends: the text of the page is the extracted string with white
    space before it and white space after it.  Stripping an extracted
    string again gives the same string. *)
Theorem extraction_trims_only_the_ends (pdfplumber : pdf_library)
    (fs : filesystem) (file_path : string) (mtime : Z)
    (f : file) (bytes : list Byte.byte) (pdf : list pdf_page)
    (txts : list (option string)) :
  fs !! file_path = Some f ->
  data f = Ok bytes ->
  pdfplumber bytes = Ok pdf ->
  extracts pdf txts ->
  exists texts,
    read_pdf_pages pdfplumber fs file_path mtime = Ok texts /\
    forall (k : nat) pg txt,
      pdf !! k = Some pg -> extract_text pg = Ok (Some txt) ->
      exists t pre post,
        texts !! k = Some t /\
        txt = pre +:+ t +:+ post /\
        all_space pre = true /\ all_space post = true /\
        strip t = t.
Proof.
  intros Hf Hd Hpdf Hx.
  exists (map (fun txt => strip (text_or_empty txt)) txts).
  split; [eapply read_pdf_pages_valid; eassumption|].
  intros k pg txt Hpg Htxt.
  assert (txts !! k = Some (Some txt)) as Hk.
  { assert (map extract_text pdf !! k = Some (Ok (Some txt))) as E
      by (rewrite list_lookup_fmap, Hpg; simpl; f_equal; exact Htxt).
    unfold extracts in Hx. rewrite Hx, list_lookup_fmap in E.
    destruct (txts !! k) as [t|]; [|discriminate].
    simpl in E. injection E as <-. reflexivity. }
  destruct (strip_split txt) as (pre & post & Hs & Hpre & Hpost).
  exists (strip txt), pre, post.
  split; [|split; [exact Hs|split; [exact Hpre|split; [exact Hpost|]]]].
  - rewrite list_lookup_fmap, Hk. simpl. unfold text_or_empty.
    destruct txt; reflexivity.
  - apply strip_fixed, strip_stripped.
Qed.

Lemma extraction_trims_only_the_ends_witness :
  let f := {| data := Ok (list_byte_of_string "%PDF spaces");
              modified := 1700000000 |} in
  let fs : filesystem := {[ "ch2.pdf" := f ]} in
  let pdf := [ {| extract_text := Ok (Some " Wide　") |};
               {| extract_text := Ok (Some "　 ") |} ] in
  let txts := [ Some " Wide　"; Some "　 " ] in
  exists texts,
    read_pdf_pages sample_pdfplumber fs "ch2.pdf" 1700000000 = Ok texts /\
    forall (k : nat) pg txt,
      pdf !! k = Some pg -> extract_text pg = Ok (Some txt) ->
      exists t pre post,
        texts !! k = Some t /\
        txt = pre +:+ t +:+ post /\
        all_space pre = true /\ all_space post = true /\
        strip t = t.
Proof.
  intros f fs pdf txts.
  assert (Hf : fs !! "ch2.pdf" = Some f) by reflexivity.
  assert (Hx : extracts pdf txts) by reflexivity.
  exact (extraction_trims_only_the_ends sample_pdfplumber fs "ch2.pdf"
           1700000000 f (list_byte_of_string "%PDF spaces") pdf txts
           Hf eq_refl eq_refl Hx).
Defined.

(** X19. With the box ticked and a page the selector offers, the preview
    shows the text of that page under a title naming its number, and the
    placeholder "_No text extracted from this page._" when the text is
    empty: its body is never empty, while the model still gets the empty
    body for that page.  With the box not ticked nothing is shown and the
    pages are not read. *)
Theorem preview_shows_text_or_placeholder (pages : list string)
    (page_idx : Z) :
  (1 <= page_idx <= Z.of_nat (length pages) ->
   exists curr body,
     page pages page_idx = Some curr /\
     preview true pages page_idx
     = Ok (Some ("Show extracted text for page " +:+ str_int page_idx, body)) /\
     truthy body = true /\
     (curr <> "" -> body = curr) /\
     (curr = "" -> body = "_No text extracted from this page._"
                   /\ exists es, joined_entries pages page_idx = Ok es
                                 /\ In (entry "Current" page_idx "") es)) /\
  preview false pages page_idx = Ok None.
Proof.
  split; [|reflexivity].
  intros Hi.
  destruct (page_in_range pages page_idx Hi) as (curr & Hcurr & Icurr).
  unfold preview. rewrite Icurr, bind_Ok.
  destruct curr as [|c r].
  - eexists "", _. split; [exact Hcurr|]. split; [reflexivity|].
    split; [reflexivity|]. split; [congruence|]. intros _.
    split; [reflexivity|].
    destruct (context_texts_valid pages page_idx Hi)
      as (cur & prev & next & Hcur & Hctx & _).
    rewrite Hcurr in Hcur. injection Hcur as <-.
    exists (List.filter truthy (prev ++ [entry "Current" page_idx ""] ++ next)).
    split; [unfold joined_entries; rewrite Hctx, bind_Ok; reflexivity|].
    apply filter_In. split; [|reflexivity].
    apply in_or_app. right. left. reflexivity.
  - eexists (String c r), _. split; [exact Hcurr|]. split; [reflexivity|].
    split; [reflexivity|]. split; [reflexivity|]. discriminate.
Qed.

Lemma preview_shows_text_or_placeholder_witness :
  let pages := ["a"; ""; "c"] in
  1 <= 2 <= Z.of_nat (length pages) /\
  exists curr body,
    page pages 2 = Some curr /\
    preview true pages 2
    = Ok (Some ("Show extracted text for page " +:+ str_int 2, body)) /\
    truthy body = true /\
    (curr <> "" -> body = curr) /\
    (curr = "" -> body = "_No text extracted from this page._"
                  /\ exists es, joined_entries pages 2 = Ok es
                                /\ In (entry "Current" 2 "") es).
Proof.
  intros pages.
  assert (H : 1 <= 2 <= Z.of_nat (length pages)) by (simpl; lia).
  split; [exact H|].
  exact (proj1 (preview_shows_text_or_placeholder pages 2) H).
Defined.

End PreviewProps.
